(** * The chat relay handler of [api/chat.js]

    A shallow embedding of the serverless function [handler] and the
    properties of its request validation, its bounded polling loop and its
    reply extraction.

    The handler is written in JavaScript against values that come out of
    [JSON.parse], so the embedding starts with those values and the handful
    of language operations the handler applies to them (property access,
    truthiness, [===] against a literal, template-literal conversion).
    Outbound calls, the timer and the log are effects: they are threaded
    through a small state-and-exception monad whose state is the trace of
    events performed so far. *)

From Equations Require Import Equations.
From Stdlib Require Import List String Ascii ZArith Arith Bool Lia DecimalString.
Import ListNotations.

Set Warnings "-register-all".
Local Open Scope list_scope.
Local Open Scope string_scope.

(** ** JavaScript values *)

Module JS.

(** The values [JSON.parse] produces, plus [undefined] (what reading a
    missing property gives).  Numbers are carried as integers: the handler
    only tests a number for being zero ([!== 0], truthiness) and converts it
    to a string, and a non-integral JSON number behaves in both tests like
    any non-zero integer.  An object is the list of its own properties;
    lookup takes the first binding of a key. *)
Inductive value : Type :=
| JUndefined
| JNull
| JBool (b : bool)
| JNum (z : Z)
| JStr (s : string)
| JArr (elems : list value)
| JObj (props : list (string * value)).

(** What a [throw] carries.  The handler's single [catch] does not look at
    it, apart from logging it. *)
Inductive exn : Type :=
| TypeError
| NetworkError
| SyntaxError.

Inductive result (A : Type) : Type :=
| Ok (a : A)
| Throw (x : exn).
Arguments Ok {A} a.
Arguments Throw {A} x.

(** Own-property lookup in an object literal. *)
Fixpoint lookup (k : string) (props : list (string * value)) : option value :=
  match props with
  | [] => None
  | (k', v) :: rest => if String.eqb k k' then Some v else lookup k rest
  end.

(** [v.k] for the property names the handler reads ([message], [code],
    [msg], [data], [id], [conversation_id], [status], [role], [type],
    [content]): none of them is defined on a built-in prototype, so the
    read gives the own property of an object, [undefined] on every other
    value that can be converted to an object, and throws on [undefined] and
    [null]. *)
Definition get (v : value) (k : string) : result value :=
  match v with
  | JUndefined | JNull => Throw TypeError
  | JObj props => match lookup k props with
                  | Some x => Ok x
                  | None => Ok JUndefined
                  end
  | _ => Ok JUndefined
  end.

(** ToBoolean. *)
Definition truthy (v : value) : bool :=
  match v with
  | JUndefined | JNull => false
  | JBool b => b
  | JNum z => negb (Z.eqb z 0)
  | JStr s => negb (String.eqb s "")
  | JArr _ | JObj _ => true
  end.

(** [a || b]. *)
Definition js_or (a b : value) : value := if truthy a then a else b.

(** [v === 'lit'] and [v === n] for a literal on the right: strict equality
    holds only for a value of the same primitive type and the same
    contents. *)
Definition strict_eq_str (v : value) (lit : string) : bool :=
  match v with
  | JStr s => String.eqb s lit
  | _ => false
  end.

Definition strict_eq_num (v : value) (n : Z) : bool :=
  match v with
  | JNum z => Z.eqb z n
  | _ => false
  end.

(** The decimal digits of an integer.  This is Number::toString for the
    integers of magnitude below 2^53, which a double holds exactly; beyond,
    the engine rounds to a double and prints its shortest digits
    (9223372036854776000 for 2^63) or, from 10^21 on, an exponent
    (1e+21).  The handler applies
    the conversion to [Date.now()], which is far below 2^53, and to whatever
    the service sends as id or status; the theorems that name a converted
    id or status take it through [rendered], which keeps to the exact
    range. *)
Definition number_to_string (z : Z) : string :=
  NilZero.string_of_int (Z.to_int z).

(** ToString, as a template literal [`${v}`] applies it.  An array is
    joined with commas, [undefined] and [null] elements giving the empty
    string.  A plain object goes through [Object.prototype.toString]; when
    the object has an own property named [toString] (a JSON value, so not
    callable) the conversion finds no usable method and throws, which is
    [None] here. *)
Fixpoint to_string (v : value) : option string :=
  match v with
  | JUndefined => Some "undefined"
  | JNull => Some "null"
  | JBool true => Some "true"
  | JBool false => Some "false"
  | JNum z => Some (number_to_string z)
  | JStr s => Some s
  | JArr elems =>
      (fix join (l : list value) : option string :=
         match l with
         | [] => Some ""
         | x :: rest =>
             let sx := match x with
                       | JUndefined | JNull => Some ""
                       | _ => to_string x
                       end in
             match rest with
             | [] => sx
             | _ :: _ =>
                 match sx, join rest with
                 | Some a, Some b => Some (a ++ "," ++ b)
                 | _, _ => None
                 end
             end
         end) elems
  | JObj props =>
      match lookup "toString" props with
      | Some _ => None
      | None => Some "[object Object]"
      end
  end.

(** A template literal with one hole that throws when the hole does. *)
Definition template (v : value) : result string :=
  match to_string v with
  | Some s => Ok s
  | None => Throw TypeError
  end.

End JS.

Import JS.

(** ** The handler's surroundings *)

(** The second argument of [fetch]: method, headers and the value handed to
    [JSON.stringify] for the body (kept as a value, not serialised). *)
Record fetch_init : Type := {
  http_method : string;
  headers : list (string * string);
  payload : option value
}.

(** What the handler does to the outside world, in order. *)
Inductive event : Type :=
| Fetch (url : string) (init : fetch_init)
| Sleep (ms : Z)
| ConsoleError (label : string) (err : exn).

Definition trace : Type := list event.

(** What one [fetch] comes back with: the promise rejects, or it resolves to
    a response with an HTTP status whose [json()] gives a value or rejects
    ([None], the body is not JSON). *)
Inductive fetch_outcome : Type :=
| FetchRejects
| FetchResponse (http_status : Z) (json : option value).

(** Everything the handler reads from outside: the two environment
    variables, the clock, and the remote service as the outcome of the n-th
    [fetch] of the run (counted from 0). *)
Record environment : Type := {
  COZE_API_TOKEN : option string;
  COZE_BOT_ID : option string;
  date_now : Z;
  network : nat -> fetch_outcome
}.

(** [req] and what [res.status(c).json(o)] sends. *)
Record request : Type := {
  method : value;
  body : value
}.

Record response : Type := {
  status_code : Z;
  json_body : value
}.

(** The loop's two mutable variables. *)
Record locals : Type := {
  status : value;
  attempts : nat
}.

(** ** Effects: trace passing with exceptions *)

Definition M (A : Type) : Type := trace -> result A * trace.

Definition ret {A} (a : A) : M A := fun tr => (Ok a, tr).

Definition bind {A B} (c : M A) (k : A -> M B) : M B :=
  fun tr =>
    match c tr with
    | (Ok a, tr') => k a tr'
    | (Throw x, tr') => (Throw x, tr')
    end.

Definition lift {A} (r : result A) : M A := fun tr => (r, tr).

Notation "x <- c ;; k" := (bind c (fun x => k))
  (at level 61, c at next level, right associativity).

Definition emit (ev : event) : M unit := fun tr => (Ok tt, (tr ++ [ev])%list).

(** [try { c } catch (err) { h err }]. *)
Definition try_catch {A} (c : M A) (h : exn -> M A) : M A :=
  fun tr =>
    match c tr with
    | (Ok a, tr') => (Ok a, tr')
    | (Throw x, tr') => h x tr'
    end.

Definition is_fetch (ev : event) : bool :=
  match ev with
  | Fetch _ _ => true
  | _ => false
  end.

(** Number of outbound calls in a trace. *)
Definition fetches (tr : trace) : nat := List.length (List.filter is_fetch tr).

Definition env_value (o : option string) : value :=
  match o with
  | Some s => JStr s
  | None => JUndefined
  end.

(** The text [Missing "message" in request body], the quotation mark being
    character 34. *)
Definition dquote : string := String (ascii_of_nat 34) EmptyString.
Definition missing_message : string :=
  "Missing " ++ dquote ++ "message" ++ dquote ++ " in request body".

Definition error_body (msg : value) : value := JObj [("error", msg)].

Definition respond (code : Z) (b : value) : response :=
  {| status_code := code; json_body := b |}.

Section Handler.

Variable e : environment.

(** [await fetch(url, init)]: the call is recorded, and its outcome is the
    one the service has for this call of the run. *)
Definition fetch (url : string) (init : fetch_init) : M (Z * option value) :=
  fun tr =>
    (match network e (fetches tr) with
     | FetchRejects => Throw NetworkError
     | FetchResponse st j => Ok (st, j)
     end, (tr ++ [Fetch url init])%list).

(** [await resp.json()]. *)
Definition json_of (resp : Z * option value) : M value :=
  lift (match snd resp with
        | Some v => Ok v
        | None => Throw SyntaxError
        end).

(** [await new Promise((r) => setTimeout(r, ms))]. *)
Definition sleep (ms : Z) : M unit := emit (Sleep ms).

(** [{ Authorization: `Bearer ${apiToken}` }]. *)
Definition authorization (apiToken : value) : result (string * string) :=
  match template apiToken with
  | Ok t => Ok ("Authorization", "Bearer " ++ t)
  | Throw x => Throw x
  end.

(** *** 1. Create a chat session (lines 26-56) *)

Definition create_url : string := "https://api.coze.com/v3/chat".

Definition create_payload (botId message : value) : value :=
  JObj [("bot_id", botId);
        ("user_id", JStr ("vercel_" ++ number_to_string (date_now e)));
        ("stream", JBool false);
        ("auto_save_history", JBool true);
        ("additional_messages",
          JArr [JObj [("role", JStr "user");
                      ("content", message);
                      ("content_type", JStr "text")]])].

(** The ids and the first status, or the response of the early [return]. *)
Definition create_session (apiToken botId message : value)
  : M (response + (value * value * value)) :=
  auth <- lift (authorization apiToken) ;;
  createResp <- fetch create_url
    {| http_method := "POST";
       headers := [("Content-Type", "application/json"); auth];
       payload := Some (create_payload botId message) |} ;;
  createData <- json_of createResp ;;
  code <- lift (get createData "code") ;;
  if negb (strict_eq_num code 0) then
    msg <- lift (get createData "msg") ;;
    ret (inl (respond 500 (error_body (js_or msg (JStr "Failed to start Coze chat")))))
  else
    data <- lift (get createData "data") ;;
    chatId <- lift (get data "id") ;;
    conversationId <- lift (get data "conversation_id") ;;
    st <- lift (get data "status") ;;
    ret (inr (chatId, conversationId, st)).

(** *** 2. Poll for completion (lines 57-72) *)

Section Session.

Variables apiToken chatId conversationId : value.

Definition session_url (base : string) : result string :=
  match template chatId, template conversationId with
  | Ok c, Ok v => Ok (base ++ "?chat_id=" ++ c ++ "&conversation_id=" ++ v)
  | Throw x, _ => Throw x
  | _, Throw x => Throw x
  end.

Definition retrieve_base : string := "https://api.coze.com/v3/chat/retrieve".
Definition list_base : string := "https://api.coze.com/v3/chat/message/list".

(** [fetch(url, { headers: { Authorization: ... } })]: no method is given,
    so it is a GET without a body. *)
Definition session_get (base : string) : M value :=
  url <- lift (session_url base) ;;
  auth <- lift (authorization apiToken) ;;
  resp <- fetch url {| http_method := "GET"; headers := [auth]; payload := None |} ;;
  json_of resp.

(** [status === 'in_progress' && attempts < 30]. *)
Definition loop_cond (l : locals) : bool :=
  strict_eq_str (status l) "in_progress" && Nat.ltb (attempts l) 30.

(** One pass through the body of the [while].  The second component is the
    response of the [return] inside the loop, when that is how the pass
    ends; the first is the loop's variables as the pass leaves them. *)
Definition loop_body (l : locals) : M (locals * option response) :=
  _ <- sleep 1000 ;;
  pollData <- session_get retrieve_base ;;
  code <- lift (get pollData "code") ;;
  if negb (strict_eq_num code 0) then
    msg <- lift (get pollData "msg") ;;
    ret (l, Some (respond 500
                    (error_body (js_or msg (JStr "Error while polling Coze chat")))))
  else
    data <- lift (get pollData "data") ;;
    st <- lift (get data "status") ;;
    ret ({| status := st; attempts := S (attempts l) |}, None).

(** The [while] loop.  It terminates because a pass that comes back to the
    test has raised [attempts], which the test bounds by 30. *)
Equations? poll_loop (l : locals) (tr : trace)
  : result (locals * option response) * trace by wf (30 - attempts l) lt :=
poll_loop l tr with Equations.Prop.Logic.inspect (loop_cond l) := {
  | exist _ false _ => (Ok (l, None), tr);
  | exist _ true Hc with Equations.Prop.Logic.inspect (loop_body l tr) := {
      | exist _ (Ok (l', None), tr') Hb => poll_loop l' tr';
      | exist _ out _ => out } }.
Proof.
  assert (Hinc : attempts l' = S (attempts l)).
  { revert Hb.
    unfold loop_body, bind, sleep, emit, session_get, bind, lift, ret,
      json_of, fetch.
    repeat match goal with
           | |- context [match ?x with _ => _ end] => destruct x; try discriminate
           | |- context [if ?x then _ else _] => destruct x; try discriminate
           end.
    all: intros H; inversion H; reflexivity. }
  unfold loop_cond in Hc.
  apply andb_true_iff in Hc. destruct Hc as [_ Hc].
  apply Nat.ltb_lt in Hc.
  change (30 - attempts l' < 30 - attempts l). lia.
Qed.

(** *** 3. Retrieve the messages and pick the answer (lines 79-95) *)

(** [(m) => m.role === 'assistant' && m.type === 'answer']. *)
Definition is_answer (m : value) : result bool :=
  match get m "role" with
  | Throw x => Throw x
  | Ok role =>
      if strict_eq_str role "assistant" then
        match get m "type" with
        | Throw x => Throw x
        | Ok type => Ok (strict_eq_str type "answer")
        end
      else Ok false
  end.

(** [Array.prototype.filter] with a callback that may throw. *)
Fixpoint array_filter (f : value -> result bool) (l : list value)
  : result (list value) :=
  match l with
  | [] => Ok []
  | x :: rest =>
      match f x with
      | Throw err => Throw err
      | Ok keep =>
          match array_filter f rest with
          | Throw err => Throw err
          | Ok kept => Ok (if keep then x :: kept else kept)
          end
      end
  end.

(** [data.filter(f)]: only an array has a callable [filter]. *)
Definition call_filter (data : value) (f : value -> result bool)
  : result (list value) :=
  match data with
  | JArr elems => array_filter f elems
  | _ => Throw TypeError
  end.

(** [botMessages.length > 0 ? botMessages[botMessages.length - 1].content : '']. *)
Definition pick_reply (botMessages : list value) : result value :=
  if Nat.ltb 0 (List.length botMessages) then
    get (nth (List.length botMessages - 1) botMessages JUndefined) "content"
  else Ok (JStr "").

Definition retrieve_reply : M response :=
  msgData <- session_get list_base ;;
  code <- lift (get msgData "code") ;;
  if negb (strict_eq_num code 0) then
    msg <- lift (get msgData "msg") ;;
    ret (respond 500 (error_body (js_or msg (JStr "Failed to fetch chat messages"))))
  else
    data <- lift (get msgData "data") ;;
    botMessages <- lift (call_filter data is_answer) ;;
    reply <- lift (pick_reply botMessages) ;;
    ret (respond 200 (JObj [("reply", reply)])).

(** Lines 74-95: what follows the loop. *)
Definition after_loop (l : locals) : M response :=
  if negb (strict_eq_str (status l) "completed") then
    s <- lift (template (status l)) ;;
    ret (respond 500
           (error_body (JStr ("Chat did not complete (status: " ++ s ++ ")"))))
  else retrieve_reply.

End Session.

(** The [try] block. *)
Definition chat (apiToken botId message : value) : M response :=
  created <- create_session apiToken botId message ;;
  match created with
  | inl early => ret early
  | inr (chatId, conversationId, st) =>
      polled <- poll_loop apiToken chatId conversationId
                  {| status := st; attempts := 0 |} ;;
      match snd polled with
      | Some early => ret early
      | None => after_loop apiToken chatId conversationId (fst polled)
      end
  end.

(** The [catch] block. *)
Definition on_error (err : exn) : M response :=
  _ <- emit (ConsoleError "Coze chat error:" err) ;;
  ret (respond 500 (error_body (JStr "Internal server error"))).

(** [export default async function handler(req, res)]. *)
Definition handler (req : request) : M response :=
  if negb (strict_eq_str (method req) "POST") then
    ret (respond 405 (error_body (JStr "Method Not Allowed")))
  else
    message <- lift (get (js_or (body req) (JObj [])) "message") ;;
    if negb (truthy message) then
      ret (respond 400 (error_body (JStr missing_message)))
    else
      let apiToken := env_value (COZE_API_TOKEN e) in
      let botId := env_value (COZE_BOT_ID e) in
      if negb (truthy apiToken) || negb (truthy botId) then
        ret (respond 500 (error_body (JStr
          "Coze API token or Bot ID not configured in environment variables.")))
      else try_catch (chat apiToken botId message) on_error.

End Handler.

(** A run of the handler starts from the empty trace. *)
Definition run (e : environment) (req : request) : result response * trace :=
  handler e req [].

(** ** Vocabulary for the statements *)

(** *** What a remote answer says *)

(** The JSON document of an answer, when there is one. *)
Definition document (fo : fetch_outcome) : option value :=
  match fo with
  | FetchResponse _ (Some v) => Some v
  | _ => None
  end.

(** The answer carries response-level code 0. *)
Definition code_zero (doc : value) : bool :=
  match get doc "code" with
  | Ok c => strict_eq_num c 0
  | Throw _ => false
  end.

(** The answer carries a response-level code other than 0 (an absent code
    counts), and this is its [msg] field. *)
Definition remote_error (fo : fetch_outcome) : option value :=
  match document fo with
  | Some doc =>
      match get doc "code", get doc "msg" with
      | Ok c, Ok msg => if strict_eq_num c 0 then None else Some msg
      | _, _ => None
      end
  | None => None
  end.

(** The answer to the create call has code 0 and these [id],
    [conversation_id] and [status] under [data]. *)
Definition created (fo : fetch_outcome) : option (value * value * value) :=
  match document fo with
  | Some doc =>
      if code_zero doc then
        match get doc "data" with
        | Ok data =>
            match get data "id", get data "conversation_id", get data "status" with
            | Ok i, Ok c, Ok s => Some (i, c, s)
            | _, _, _ => None
            end
        | Throw _ => None
        end
      else None
  | None => None
  end.

(** The answer to a poll has code 0 and this [status] under [data]. *)
Definition polled_status (fo : fetch_outcome) : option value :=
  match document fo with
  | Some doc =>
      if code_zero doc then
        match get doc "data" with
        | Ok data =>
            match get data "status" with
            | Ok s => Some s
            | Throw _ => None
            end
        | Throw _ => None
        end
      else None
  | None => None
  end.

(** The answer to the list call has code 0 and this array under [data]. *)
Definition listed (fo : fetch_outcome) : option (list value) :=
  match document fo with
  | Some doc =>
      if code_zero doc then
        match get doc "data" with
        | Ok (JArr ms) => Some ms
        | _ => None
        end
      else None
  | None => None
  end.

(** *** What a trace contains *)

Definition is_poll_call (ev : event) : bool :=
  match ev with
  | Fetch url _ => prefix "https://api.coze.com/v3/chat/retrieve?" url
  | _ => false
  end.

Definition is_list_call (ev : event) : bool :=
  match ev with
  | Fetch url _ => prefix "https://api.coze.com/v3/chat/message/list?" url
  | _ => false
  end.

Definition poll_calls (tr : trace) : nat := List.length (List.filter is_poll_call tr).
Definition list_calls (tr : trace) : nat := List.length (List.filter is_list_call tr).

(** The events of the three kinds of call, for a token [t] and ids that
    convert to the strings [c] and [v]. *)
Definition create_call (e : environment) (t b : string) (message : value) : event :=
  Fetch create_url
    {| http_method := "POST";
       headers := [("Content-Type", "application/json");
                   ("Authorization", "Bearer " ++ t)];
       payload := Some (create_payload e (JStr b) message) |}.

Definition session_call (base t c v : string) : event :=
  Fetch (base ++ "?chat_id=" ++ c ++ "&conversation_id=" ++ v)
    {| http_method := "GET";
       headers := [("Authorization", "Bearer " ++ t)];
       payload := None |}.

(** One pass of the loop: the wait, then the poll. *)
Definition poll_pass (t c v : string) : trace :=
  [Sleep 1000; session_call retrieve_base t c v].

Fixpoint poll_passes (n : nat) (t c v : string) : trace :=
  match n with
  | O => []
  | S n' => (poll_pass t c v ++ poll_passes n' t c v)%list
  end.

(** *** The request as the specification describes it *)

(** The body has a [message] field that is a non-empty string. *)
Definition has_message_string (b : value) : bool :=
  match b with
  | JObj props =>
      match lookup "message" props with
      | Some (JStr s) => negb (String.eqb s "")
      | _ => false
      end
  | _ => false
  end.

(** The filter of step 3 on well-formed entries, without the exceptions. *)
Definition assistant_answer (m : value) : bool :=
  match get m "role", get m "type" with
  | Ok role, Ok type => strict_eq_str role "assistant" && strict_eq_str type "answer"
  | _, _ => false
  end.

Definition content_of (m : value) : value :=
  match get m "content" with
  | Ok c => c
  | Throw _ => JUndefined
  end.

(** The entry is an object or a primitive, not [null] (nor [undefined]). *)
Definition not_nullish (m : value) : bool :=
  match m with
  | JUndefined | JNull => false
  | _ => true
  end.

(** The fixed responses. *)
Definition method_not_allowed : response :=
  respond 405 (error_body (JStr "Method Not Allowed")).
Definition bad_request : response :=
  respond 400 (error_body (JStr missing_message)).
Definition misconfigured : response :=
  respond 500 (error_body (JStr
    "Coze API token or Bot ID not configured in environment variables.")).
Definition upstream_error (msg : value) (fallback : string) : response :=
  respond 500 (error_body (js_or msg (JStr fallback))).
Definition incomplete_chat (s : string) : response :=
  respond 500 (error_body (JStr ("Chat did not complete (status: " ++ s ++ ")"))).
Definition reply_with (reply : value) : response :=
  respond 200 (JObj [("reply", reply)]).

(** The request passes the first two checks of the handler, with this
    [message]. *)
Definition posted_message (req : request) : option value :=
  if strict_eq_str (method req) "POST" then
    match get (js_or (body req) (JObj [])) "message" with
    | Ok m => if truthy m then Some m else None
    | Throw _ => None
    end
  else None.

(** Both environment variables are set and not empty. *)
Definition configured (e : environment) : option (string * string) :=
  match COZE_API_TOKEN e, COZE_BOT_ID e with
  | Some t, Some b =>
      if truthy (JStr t) && truthy (JStr b) then Some (t, b) else None
  | _, _ => None
  end.

(** What a stretch of trace added by the loop looks like: its outbound
    calls are all polls, so none is a message-list call. *)
Definition polls_only (suffix : trace) : Prop :=
  (list_calls suffix = 0 /\ poll_calls suffix = fetches suffix)%nat.

(** Two answers that differ at most in their HTTP status. *)
Definition forget_http_status (fo : fetch_outcome) : fetch_outcome :=
  match fo with
  | FetchRejects => FetchRejects
  | FetchResponse _ j => FetchResponse 0 j
  end.

(** *** Sample services and requests *)

Module Sample.

Definition session_doc (st : value) : value :=
  JObj [("code", JNum 0);
        ("data", JObj [("id", JStr "chat1");
                       ("conversation_id", JStr "conv1");
                       ("status", st)])].

Definition message (role type content : string) : value :=
  JObj [("role", JStr role); ("type", JStr type); ("content", JStr content)].

(** Two answers "A" then "B", with a user message between them. *)
Definition messages_doc : value :=
  JObj [("code", JNum 0);
        ("data", JArr [message "assistant" "answer" "A";
                       message "user" "question" "hello";
                       message "assistant" "answer" "B"])].

(** Only a user message and a follow-up suggestion: no answer. *)
Definition no_answer_doc : value :=
  JObj [("code", JNum 0);
        ("data", JArr [message "user" "question" "hello";
                       message "assistant" "follow_up" "more?"])].

(** A list whose second entry is [null]. *)
Definition null_entry_doc : value :=
  JObj [("code", JNum 0);
        ("data", JArr [message "assistant" "answer" "A"; JNull])].

Definition error_doc : value :=
  JObj [("code", JNum 4100); ("msg", JStr "authentication is invalid")].

Definition env_with (net : nat -> fetch_outcome) : environment :=
  {| COZE_API_TOKEN := Some "pat_token";
     COZE_BOT_ID := Some "bot_7";
     date_now := 1700000000000;
     network := net |}.

Definition answers (http : Z) (doc : value) : fetch_outcome :=
  FetchResponse http (Some doc).

(** The chat is complete at once. *)
Definition quick : environment :=
  env_with (fun n => match n with
                     | 0 => answers 200 (session_doc (JStr "completed"))
                     | _ => answers 200 messages_doc
                     end).

Definition quick_null_entry : environment :=
  env_with (fun n => match n with
                     | 0 => answers 200 (session_doc (JStr "completed"))
                     | _ => answers 200 null_entry_doc
                     end).

Definition quick_no_answer : environment :=
  env_with (fun n => match n with
                     | 0 => answers 200 (session_doc (JStr "completed"))
                     | _ => answers 200 no_answer_doc
                     end).

(** The chat never leaves "in_progress". *)
Definition stuck : environment :=
  env_with (fun _ => answers 200 (session_doc (JStr "in_progress"))).

(** Created "in_progress"; the polls answer "in_progress", "in_progress",
    "completed". *)
Definition three_polls : environment :=
  env_with (fun n => match n with
                     | 0 | 1 | 2 => answers 200 (session_doc (JStr "in_progress"))
                     | 3 => answers 200 (session_doc (JStr "completed"))
                     | _ => answers 200 messages_doc
                     end).

(** The create call is refused. *)
Definition refused : environment :=
  env_with (fun _ => answers 200 error_doc).

(** The second poll is refused. *)
Definition poll_refused : environment :=
  env_with (fun n => match n with
                     | 0 | 1 => answers 200 (session_doc (JStr "in_progress"))
                     | _ => answers 200 error_doc
                     end).

(** The connection drops at the second poll. *)
Definition poll_drops : environment :=
  env_with (fun n => match n with
                     | 0 | 1 => answers 200 (session_doc (JStr "in_progress"))
                     | _ => FetchRejects
                     end).

(** The message list is refused. *)
Definition list_refused : environment :=
  env_with (fun n => match n with
                     | 0 => answers 200 (session_doc (JStr "completed"))
                     | _ => answers 200 error_doc
                     end).

(** The chat is created with a status that is an object with an own
    [toString] property, which no template literal can convert. *)
Definition odd_status : environment :=
  env_with (fun _ => answers 200 (session_doc (JObj [("toString", JNum 1)]))).

(** The chat is created in the state "failed". *)
Definition failed : environment :=
  env_with (fun _ => answers 200 (session_doc (JStr "failed"))).

(** Every answer comes with HTTP status 503, and a body that says code 0. *)
Definition bad_gateway : environment :=
  env_with (fun n => match n with
                     | 0 => answers 503 (session_doc (JStr "completed"))
                     | _ => answers 503 messages_doc
                     end).

(** No call gets through. *)
Definition offline : environment := env_with (fun _ => FetchRejects).

(** The token variable is set, to the empty string. *)
Definition empty_token : environment :=
  {| COZE_API_TOKEN := Some "";
     COZE_BOT_ID := Some "bot_7";
     date_now := 1700000000000;
     network := fun _ => FetchRejects |}.

Definition no_token : environment :=
  {| COZE_API_TOKEN := None;
     COZE_BOT_ID := Some "bot_7";
     date_now := 1700000000000;
     network := fun _ => FetchRejects |}.

Definition post (b : value) : request := {| method := JStr "POST"; body := b |}.

Definition hello : request := post (JObj [("message", JStr "hello")]).
Definition number_message : request := post (JObj [("message", JNum 42)]).
Definition empty_body : request := post (JObj []).
Definition get_request : request :=
  {| method := JStr "GET"; body := JUndefined |}.

Definition polling : locals := {| status := JStr "in_progress"; attempts := 0 |}.

End Sample.

(** *** Values whose conversion to a string is the engine's *)

(** Every number inside the value is an integer of magnitude below 2^53.
    Those are the integers a double holds exactly and that Number::toString
    prints with all their decimal digits, as [number_to_string] does.  The
    contents of an object do not matter: its conversion does not read
    them. *)
Fixpoint exact_numbers (v : value) : bool :=
  match v with
  | JNum z => Z.ltb (Z.abs z) (2 ^ 53)
  | JArr elems => forallb exact_numbers elems
  | _ => true
  end.

(** The string a template literal makes of the value, for the values on
    which [to_string] is the engine's conversion: strings, [undefined],
    [null], booleans, numbers as above, plain objects, and arrays of
    such. *)
Definition rendered (v : value) : option string :=
  if exact_numbers v then to_string v else None.

(** *** Waits, logs and headers *)

Definition is_log (ev : event) : bool :=
  match ev with
  | ConsoleError _ _ => true
  | _ => false
  end.

(** Number of [console.error] lines in a trace. *)
Definition logs (tr : trace) : nat := List.length (List.filter is_log tr).

(** Milliseconds spent in [setTimeout] waits. *)
Fixpoint waited (tr : trace) : Z :=
  match tr with
  | [] => 0%Z
  | Sleep ms :: rest => (ms + waited rest)%Z
  | _ :: rest => waited rest
  end.

Definition has_header (name content : string) (init : fetch_init) : bool :=
  existsb (fun h => String.eqb (fst h) name && String.eqb (snd h) content)
          (headers init).

(** An outbound call carries [Authorization: Bearer t]; other events have
    nothing to carry. *)
Definition authorised (t : string) (ev : event) : bool :=
  match ev with
  | Fetch _ init => has_header "Authorization" ("Bearer " ++ t) init
  | _ => true
  end.

(** An outbound call with a request body. *)
Definition carries_payload (ev : event) : bool :=
  match ev with
  | Fetch _ {| payload := Some _ |} => true
  | _ => false
  end.

(** What the two kinds of call after the create call look like: a wait of
    one second, or a GET with the bearer token as its only header. *)
Definition session_event (t : string) (ev : event) : Prop :=
  ev = Sleep 1000 \/
  exists url,
    ev = Fetch url {| http_method := "GET";
                      headers := [("Authorization", "Bearer " ++ t)];
                      payload := None |}.

(** The response of the [catch] block. *)
Definition internal_error : response :=
  respond 500 (error_body (JStr "Internal server error")).

(** Case analysis on a scrutinee of the goal that is not itself a [match]. *)
Ltac destruct_scrutinee :=
  match goal with
  | |- context [match ?x with _ => _ end] =>
      lazymatch x with
      | context [match _ with _ => _ end] => fail
      | _ => destruct x eqn:?
      end
  end.

(** ** Basic facts about the value operations *)

Lemma strict_eq_str_true (v : value) (lit : string) :
  strict_eq_str v lit = true <-> v = JStr lit.
Proof.
  destruct v; simpl; split; intros H; try discriminate.
  - apply String.eqb_eq in H. now subst.
  - injection H as ->. apply String.eqb_refl.
Qed.

Lemma strict_eq_str_false (v : value) (lit : string) :
  strict_eq_str v lit = false <-> v <> JStr lit.
Proof.
  rewrite <- strict_eq_str_true. destruct (strict_eq_str v lit); split; congruence.
Qed.

Lemma strict_eq_num_true (v : value) (n : Z) :
  strict_eq_num v n = true <-> v = JNum n.
Proof.
  destruct v; simpl; split; intros H; try discriminate.
  - apply Z.eqb_eq in H. now subst.
  - injection H as ->. apply Z.eqb_refl.
Qed.

Lemma rendered_to_string (v : value) (txt : string) :
  rendered v = Some txt -> to_string v = Some txt.
Proof.
  unfold rendered. destruct (exact_numbers v); [trivial|discriminate].
Qed.

Lemma rendered_string (txt : string) : rendered (JStr txt) = Some txt.
Proof. reflexivity. Qed.

(** What [rendered] keeps and what it leaves out. *)
Example rendered_values :
  rendered JUndefined = Some "undefined" /\
  rendered (JNum 42) = Some "42" /\
  rendered (JNum (2 ^ 53 - 1)) = Some "9007199254740991" /\
  rendered (JArr [JNum (-7); JNull; JStr "x"]) = Some "-7,,x" /\
  rendered (JNum (2 ^ 63)) = None /\
  rendered (JNum (10 ^ 21)) = None /\
  rendered (JArr [JStr "x"; JNum (2 ^ 53)]) = None /\
  rendered (JObj [("toString", JNum 1)]) = None.
Proof. repeat split; reflexivity. Qed.

(** Destructuring [req.body || {}] never throws. *)
Lemma message_read (b : value) :
  exists m, get (js_or b (JObj [])) "message" = Ok m.
Proof.
  unfold js_or. destruct b as [| |[|]|z|s| |props]; simpl; eauto.
  - destruct (Z.eqb z 0); simpl; eauto.
  - destruct (String.eqb s ""); simpl; eauto.
  - destruct (lookup "message" props); eauto.
Qed.

Lemma posted_message_inv (req : request) (m : value) :
  posted_message req = Some m ->
  method req = JStr "POST" /\
  get (js_or (body req) (JObj [])) "message" = Ok m /\
  truthy m = true.
Proof.
  unfold posted_message.
  destruct (strict_eq_str (method req) "POST") eqn:Hm; [|discriminate].
  apply strict_eq_str_true in Hm.
  destruct (get _ "message") as [m'|]; [|discriminate].
  destruct (truthy m') eqn:Ht; [|discriminate].
  intros H; injection H as <-. auto.
Qed.

(** A body with a non-empty [message] string passes the check. *)
Lemma has_message_string_posted (req : request) :
  method req = JStr "POST" ->
  has_message_string (body req) = true ->
  exists s, posted_message req = Some (JStr s).
Proof.
  intros Hm Hb. unfold posted_message. rewrite Hm. simpl.
  destruct (body req) as [| | | | | |props]; try discriminate.
  simpl in *. destruct (lookup "message" props) as [[| | | |s| |]|]; try discriminate.
  exists s. simpl. now rewrite Hb.
Qed.

Lemma configured_inv (e : environment) (t b : string) :
  configured e = Some (t, b) ->
  COZE_API_TOKEN e = Some t /\ COZE_BOT_ID e = Some b /\
  truthy (JStr t) = true /\ truthy (JStr b) = true.
Proof.
  unfold configured.
  destruct (COZE_API_TOKEN e) as [t'|]; [|discriminate].
  destruct (COZE_BOT_ID e) as [b'|]; [|discriminate].
  destruct (truthy (JStr t')) eqn:Ht; [|discriminate].
  destruct (truthy (JStr b')) eqn:Hb; [|discriminate].
  simpl. intros H; injection H as <- <-. auto.
Qed.

(** A request that passes the checks, with the configuration in place, runs
    the [try] block. *)
Lemma run_chat (e : environment) (req : request) (m : value) (t b : string) :
  posted_message req = Some m ->
  configured e = Some (t, b) ->
  run e req = try_catch (chat e (JStr t) (JStr b) m) on_error [].
Proof.
  intros Hp Hc.
  apply posted_message_inv in Hp. destruct Hp as (Hm & Hg & Ht).
  apply configured_inv in Hc. destruct Hc as (Ha & Hb & Hta & Htb).
  unfold run, handler.
  rewrite (proj2 (strict_eq_str_true _ _) Hm). cbn [negb].
  unfold bind, lift. rewrite Hg, Ht, Ha, Hb. cbn [negb env_value].
  rewrite Hta, Htb. reflexivity.
Qed.

(** ** Request validation *)

(** C8.  A request whose method is not POST is answered 405 with the error
    [Method Not Allowed], and the run performs nothing: no outbound call, no
    wait, no log. *)
Theorem non_post_is_405 (e : environment) (req : request) :
  method req <> JStr "POST" ->
  run e req = (Ok method_not_allowed, []).
Proof.
  intros H. apply strict_eq_str_false in H.
  unfold run, handler. rewrite H. reflexivity.
Qed.

(** C9.  A POST request with a message, when the API token or the bot
    identifier is absent from the environment, is answered 500 with the
    configuration error and the run performs no outbound call. *)
Theorem missing_configuration_is_500 (e : environment) (req : request) (m : value) :
  posted_message req = Some m ->
  COZE_API_TOKEN e = None \/ COZE_BOT_ID e = None ->
  run e req = (Ok misconfigured, []).
Proof.
  intros Hp Hc.
  apply posted_message_inv in Hp. destruct Hp as (Hm & Hg & Ht).
  unfold run, handler. rewrite Hm. simpl.
  unfold bind, lift. rewrite Hg, Ht. simpl.
  destruct Hc as [Hc|Hc]; rewrite Hc; simpl.
  - reflexivity.
  - rewrite orb_true_r. reflexivity.
Qed.

(** An empty variable counts as missing too. *)
Lemma not_configured_is_500 (e : environment) (req : request) (m : value) :
  posted_message req = Some m ->
  configured e = None ->
  run e req = (Ok misconfigured, []).
Proof.
  intros Hp Hc.
  apply posted_message_inv in Hp. destruct Hp as (Hm & Hg & Ht).
  unfold run, handler. rewrite Hm. simpl.
  unfold bind, lift. rewrite Hg, Ht. simpl.
  unfold configured in Hc.
  destruct (COZE_API_TOKEN e) as [t|]; [|reflexivity].
  destruct (COZE_BOT_ID e) as [b|]; [|simpl; rewrite orb_true_r; reflexivity].
  cbn [env_value] in *.
  destruct (truthy (JStr t)); [|reflexivity].
  destruct (truthy (JStr b)); [discriminate|reflexivity].
Qed.

(** ** Counting calls *)

(** From here on [++] is the append of traces. *)
Local Open Scope list_scope.

Lemma fetches_app (tr tr' : trace) :
  fetches (tr ++ tr') = fetches tr + fetches tr'.
Proof. unfold fetches. now rewrite filter_app, length_app. Qed.

Lemma poll_calls_app (tr tr' : trace) :
  poll_calls (tr ++ tr') = poll_calls tr + poll_calls tr'.
Proof. unfold poll_calls. now rewrite filter_app, length_app. Qed.

Lemma list_calls_app (tr tr' : trace) :
  list_calls (tr ++ tr') = list_calls tr + list_calls tr'.
Proof. unfold list_calls. now rewrite filter_app, length_app. Qed.

Lemma fetches_poll_passes (n : nat) (t c v : string) :
  fetches (poll_passes n t c v) = n.
Proof.
  induction n as [|n IH]; [reflexivity|].
  change (poll_passes (S n) t c v)
    with (poll_pass t c v ++ poll_passes n t c v).
  rewrite fetches_app, IH. reflexivity.
Qed.

Lemma poll_calls_poll_passes (n : nat) (t c v : string) :
  poll_calls (poll_passes n t c v) = n.
Proof.
  induction n as [|n IH]; [reflexivity|].
  change (poll_passes (S n) t c v)
    with (poll_pass t c v ++ poll_passes n t c v).
  rewrite poll_calls_app, IH. reflexivity.
Qed.

Lemma list_calls_poll_passes (n : nat) (t c v : string) :
  list_calls (poll_passes n t c v) = 0.
Proof.
  induction n as [|n IH]; [reflexivity|].
  change (poll_passes (S n) t c v)
    with (poll_pass t c v ++ poll_passes n t c v).
  rewrite list_calls_app, IH. reflexivity.
Qed.

Lemma poll_passes_snoc (n : nat) (t c v : string) :
  (poll_passes n t c v ++ poll_pass t c v)%list = poll_passes (S n) t c v.
Proof.
  induction n as [|n IH]; [reflexivity|].
  change (poll_passes (S n) t c v)
    with (poll_pass t c v ++ poll_passes n t c v)%list.
  rewrite <- app_assoc, IH. reflexivity.
Qed.

(** ** The three calls, one at a time *)

Section Calls.

Variable e : environment.
Variables t b : string.

Lemma create_session_created (m i c s : value) (tr : trace) :
  created (network e (fetches tr)) = Some (i, c, s) ->
  create_session e (JStr t) (JStr b) m tr
  = (Ok (inr (i, c, s)), (tr ++ [create_call e t b m])%list).
Proof.
  unfold created, document, code_zero, create_session, fetch, json_of, bind, lift, ret.
  cbn [authorization template to_string].
  destruct (network e (fetches tr)) as [|hs [doc|]]; try discriminate.
  cbn [snd]. destruct (get doc "code") as [code|]; [|discriminate].
  destruct (strict_eq_num code 0); [|discriminate]. cbn [negb].
  destruct (get doc "data") as [data|]; [|discriminate].
  destruct (get data "id"); [|discriminate].
  destruct (get data "conversation_id"); [|discriminate].
  destruct (get data "status"); [|discriminate].
  intros H; injection H as -> -> ->. reflexivity.
Qed.

Lemma create_session_error (m msg : value) (tr : trace) :
  remote_error (network e (fetches tr)) = Some msg ->
  create_session e (JStr t) (JStr b) m tr
  = (Ok (inl (upstream_error msg "Failed to start Coze chat")),
     (tr ++ [create_call e t b m])%list).
Proof.
  unfold remote_error, document, create_session, fetch, json_of, bind, lift, ret.
  cbn [authorization template to_string].
  destruct (network e (fetches tr)) as [|hs [doc|]]; try discriminate.
  cbn [snd]. destruct (get doc "code") as [code|]; [|discriminate].
  destruct (get doc "msg") as [msg'|]; [|discriminate].
  destruct (strict_eq_num code 0); [discriminate|]. cbn [negb].
  intros H; injection H as ->. reflexivity.
Qed.

Section Session.

Variables chatId conversationId : value.
Variables c v : string.
Hypothesis chatId_string : to_string chatId = Some c.
Hypothesis conversationId_string : to_string conversationId = Some v.

Lemma session_get_document (base : string) (doc : value) (tr : trace) :
  document (network e (fetches tr)) = Some doc ->
  session_get e (JStr t) chatId conversationId base tr
  = (Ok doc, (tr ++ [session_call base t c v])%list).
Proof.
  unfold document, session_get, session_url, template, fetch, json_of, bind, lift.
  rewrite chatId_string, conversationId_string.
  cbn [authorization template to_string].
  destruct (network e (fetches tr)) as [|hs [doc'|]]; try discriminate.
  intros H; injection H as ->. reflexivity.
Qed.

Lemma after_sleep (tr : trace) (ms : Z) :
  fetches (tr ++ [Sleep ms]) = fetches tr.
Proof. rewrite fetches_app. simpl. apply Nat.add_0_r. Qed.

Lemma loop_body_polled (l : locals) (st : value) (tr : trace) :
  polled_status (network e (fetches tr)) = Some st ->
  loop_body e (JStr t) chatId conversationId l tr
  = (Ok ({| status := st; attempts := S (attempts l) |}, None),
     (tr ++ poll_pass t c v)%list).
Proof.
  intros H. unfold polled_status in H.
  destruct (document (network e (fetches tr))) as [doc|] eqn:Hd; [|discriminate].
  unfold loop_body, sleep, emit. unfold bind at 1.
  rewrite <- (after_sleep tr 1000) in Hd.
  unfold bind at 1. rewrite (session_get_document _ _ _ Hd).
  unfold code_zero in H. unfold bind, lift, ret.
  destruct (get doc "code") as [code|]; [|discriminate].
  destruct (strict_eq_num code 0); [|discriminate]. cbn [negb].
  destruct (get doc "data") as [data|]; [|discriminate].
  destruct (get data "status"); [|discriminate].
  injection H as ->. rewrite <- app_assoc. reflexivity.
Qed.

Lemma loop_body_error (l : locals) (msg : value) (tr : trace) :
  remote_error (network e (fetches tr)) = Some msg ->
  loop_body e (JStr t) chatId conversationId l tr
  = (Ok (l, Some (upstream_error msg "Error while polling Coze chat")),
     (tr ++ poll_pass t c v)%list).
Proof.
  intros H. unfold remote_error in H.
  destruct (document (network e (fetches tr))) as [doc|] eqn:Hd; [|discriminate].
  unfold loop_body, sleep, emit. unfold bind at 1.
  rewrite <- (after_sleep tr 1000) in Hd.
  unfold bind at 1. rewrite (session_get_document _ _ _ Hd).
  unfold bind, lift, ret.
  destruct (get doc "code") as [code|]; [|discriminate].
  destruct (get doc "msg") as [msg'|]; [|discriminate].
  destruct (strict_eq_num code 0); [discriminate|]. cbn [negb].
  injection H as ->. rewrite <- app_assoc. reflexivity.
Qed.

(** *** The loop *)

Lemma poll_loop_exit (a ci cv : value) (l : locals) (tr : trace) :
  loop_cond l = false ->
  poll_loop e a ci cv l tr = (Ok (l, None), tr).
Proof.
  intros H. rewrite poll_loop_equation_1.
  generalize (Equations.Prop.Logic.inspect (loop_cond l)).
  intros [[|] Hc]; [congruence|]. simp poll_loop. reflexivity.
Qed.

Lemma poll_loop_enter (a ci cv : value) (l : locals) (tr : trace) :
  loop_cond l = true ->
  poll_loop e a ci cv l tr
  = match loop_body e a ci cv l tr with
    | (Ok (l', None), tr') => poll_loop e a ci cv l' tr'
    | out => out
    end.
Proof.
  intros H. rewrite poll_loop_equation_1.
  generalize (Equations.Prop.Logic.inspect (loop_cond l)).
  intros [[|] Hc]; [|congruence]. simp poll_loop.
  generalize (Equations.Prop.Logic.inspect (loop_body e a ci cv l tr)).
  intros [[[[l' [r|]]|x] tr'] Hb]; simp poll_loop; rewrite Hb;
    rewrite ?poll_loop_equation_1; reflexivity.
Qed.

Lemma poll_loop_polled (l : locals) (st : value) (tr : trace) :
  loop_cond l = true ->
  polled_status (network e (fetches tr)) = Some st ->
  poll_loop e (JStr t) chatId conversationId l tr
  = poll_loop e (JStr t) chatId conversationId
      {| status := st; attempts := S (attempts l) |}
      (tr ++ poll_pass t c v)%list.
Proof.
  intros Hc Hp. rewrite (poll_loop_enter _ _ _ _ _ Hc).
  rewrite (loop_body_polled _ _ _ Hp). reflexivity.
Qed.

Lemma poll_loop_error (l : locals) (msg : value) (tr : trace) :
  loop_cond l = true ->
  remote_error (network e (fetches tr)) = Some msg ->
  poll_loop e (JStr t) chatId conversationId l tr
  = (Ok (l, Some (upstream_error msg "Error while polling Coze chat")),
     (tr ++ poll_pass t c v)%list).
Proof.
  intros Hc Hp. rewrite (poll_loop_enter _ _ _ _ _ Hc).
  rewrite (loop_body_error _ _ _ Hp). reflexivity.
Qed.

(** [n] polls in a row that answer "in_progress" are [n] passes, as long as
    the ceiling allows them. *)
Lemma poll_loop_in_progress (n : nat) :
  forall (a : nat) (tr : trace),
    a + n <= 30 ->
    (forall i, i < n ->
       polled_status (network e (fetches tr + i)) = Some (JStr "in_progress")) ->
    poll_loop e (JStr t) chatId conversationId
      {| status := JStr "in_progress"; attempts := a |} tr
    = poll_loop e (JStr t) chatId conversationId
        {| status := JStr "in_progress"; attempts := a + n |}
        (tr ++ poll_passes n t c v)%list.
Proof.
  induction n as [|n IH]; intros a tr Hle Hpoll.
  - rewrite Nat.add_0_r, app_nil_r. reflexivity.
  - rewrite (poll_loop_polled _ (JStr "in_progress")).
    + cbn [attempts]. rewrite IH.
      * rewrite <- app_assoc. replace (S a + n) with (a + S n) by lia.
        reflexivity.
      * lia.
      * intros i Hi. rewrite fetches_app.
        change (fetches (poll_pass t c v)) with 1.
        replace (fetches tr + 1 + i) with (fetches tr + S i) by lia.
        apply Hpoll. lia.
    + unfold loop_cond. cbn [status attempts strict_eq_str].
      rewrite String.eqb_refl. apply Nat.ltb_lt. lia.
    + specialize (Hpoll 0). rewrite Nat.add_0_r in Hpoll. apply Hpoll. lia.
Qed.

End Session.
End Calls.

(** ** What every pass and every loop does *)

Section Invariants.

Variable e : environment.
Variables apiToken chatId conversationId : value.

Lemma polls_only_app (s1 s2 : trace) :
  polls_only s1 -> polls_only s2 -> polls_only (s1 ++ s2).
Proof.
  unfold polls_only. intros [H1 H2] [H3 H4].
  rewrite list_calls_app, poll_calls_app, fetches_app. lia.
Qed.

(** One pass: it adds a wait and at most one poll to the trace; when it
    comes back to the test it has raised [attempts] by one; when it ends in
    the [return] of the error branch, the variables are as they were and the
    response is a 500. *)
Lemma loop_body_inv (l : locals) (tr : trace)
      (out : result (locals * option response)) (tr' : trace) :
  loop_body e apiToken chatId conversationId l tr = (out, tr') ->
  (exists suffix,
      tr' = tr ++ suffix /\ polls_only suffix /\ fetches suffix <= 1) /\
  match out with
  | Ok (l', None) => attempts l' = S (attempts l)
  | Ok (l', Some r) => l' = l /\ status_code r = 500%Z
  | Throw _ => True
  end.
Proof.
  unfold loop_body, session_get, session_url, sleep, emit, fetch, json_of,
    bind, lift, ret.
  repeat destruct_scrutinee;
    intros H; inversion H; subst; clear H;
    (split;
     [ eexists; split;
       [ rewrite <- ?app_assoc; reflexivity
       | split; [split; reflexivity | cbn; lia] ]
     | cbn; auto ]).
Qed.

(** The loop: whatever the service answers, it adds only waits and polls,
    at most as many polls as the ceiling leaves; it ends below the test only
    with a state that fails the test, and a response it returns from inside
    is a 500. *)
Lemma poll_loop_inv (k : nat) :
  forall (l : locals) (tr : trace)
         (out : result (locals * option response)) (tr' : trace),
    30 - attempts l <= k ->
    poll_loop e apiToken chatId conversationId l tr = (out, tr') ->
    (exists suffix,
        tr' = tr ++ suffix /\ polls_only suffix /\
        fetches suffix <= 30 - attempts l) /\
    match out with
    | Ok (l', None) => loop_cond l' = false
    | Ok (_, Some r) => status_code r = 500%Z
    | Throw _ => True
    end.
Proof.
  induction k as [|k IH]; intros l tr out tr' Hk Hrun.
  - assert (Hc : loop_cond l = false).
    { unfold loop_cond. replace (Nat.ltb (attempts l) 30) with false.
      - apply andb_false_r.
      - symmetry. apply Nat.ltb_ge. lia. }
    rewrite (poll_loop_exit _ _ _ _ _ _ Hc) in Hrun.
    inversion Hrun; subst; clear Hrun. split; [|exact Hc].
    exists []. rewrite app_nil_r. repeat split; cbn; lia.
  - destruct (loop_cond l) eqn:Hc.
    + rewrite (poll_loop_enter _ _ _ _ _ _ Hc) in Hrun.
      assert (Hlt : attempts l < 30).
      { unfold loop_cond in Hc. apply andb_true_iff in Hc.
        destruct Hc as [_ Hc]. now apply Nat.ltb_lt in Hc. }
      destruct (loop_body e apiToken chatId conversationId l tr)
        as [r tr1] eqn:Hb.
      apply loop_body_inv in Hb.
      destruct Hb as [(s1 & -> & Hs1 & Hn1) Hout].
      destruct r as [[l1 [early|]]|x].
      * inversion Hrun; subst; clear Hrun. split; [|tauto].
        exists s1. split; [reflexivity|]. split; [exact Hs1|lia].
      * apply IH in Hrun; [|lia].
        destruct Hrun as [(s2 & -> & Hs2 & Hn2) Hfin]. split; [|exact Hfin].
        exists (s1 ++ s2). rewrite app_assoc. split; [reflexivity|].
        split; [now apply polls_only_app|]. rewrite fetches_app. lia.
      * inversion Hrun; subst; clear Hrun. split; [|exact I].
        exists s1. split; [reflexivity|]. split; [exact Hs1|lia].
    + rewrite (poll_loop_exit _ _ _ _ _ _ Hc) in Hrun.
      inversion Hrun; subst; clear Hrun. split; [|exact Hc].
      exists []. rewrite app_nil_r. repeat split; cbn; lia.
Qed.

End Invariants.

(** ** Status codes of the [try] block *)

Section Codes.

Variable e : environment.

Lemma create_session_inv (a b m : value) (tr tr' : trace) (r : response) :
  create_session e a b m tr = (Ok (inl r), tr') -> status_code r = 500%Z.
Proof.
  unfold create_session, fetch, json_of, bind, lift, ret.
  repeat destruct_scrutinee; intros H; inversion H; reflexivity.
Qed.

Lemma retrieve_reply_inv (a ci cv : value) (tr tr' : trace) (r : response) :
  retrieve_reply e a ci cv tr = (Ok r, tr') ->
  status_code r = 200%Z \/ status_code r = 500%Z.
Proof.
  unfold retrieve_reply, session_get, fetch, json_of, bind, lift, ret.
  repeat destruct_scrutinee; intros H; inversion H; auto.
Qed.

Lemma after_loop_inv (a ci cv : value) (l : locals) (tr tr' : trace) (r : response) :
  after_loop e a ci cv l tr = (Ok r, tr') ->
  status_code r = 200%Z \/ status_code r = 500%Z.
Proof.
  unfold after_loop. destruct (negb (strict_eq_str (status l) "completed")).
  - unfold bind, lift, ret. repeat destruct_scrutinee;
      intros H; inversion H; auto.
  - apply retrieve_reply_inv.
Qed.

Lemma chat_inv (a b m : value) (tr tr' : trace) (r : response) :
  chat e a b m tr = (Ok r, tr') ->
  status_code r = 200%Z \/ status_code r = 500%Z.
Proof.
  unfold chat. unfold bind at 1.
  destruct (create_session e a b m tr) as [[[early|[[ci cv] st]]|x] tr1] eqn:Hc;
    [| |discriminate].
  - apply create_session_inv in Hc. unfold ret.
    intros H; inversion H; subst. auto.
  - unfold bind.
    destruct (poll_loop e a ci cv {| status := st; attempts := 0 |} tr1)
      as [[[l [early|]]|x] tr2] eqn:Hp; cbn [fst snd]; [| |discriminate].
    + apply (poll_loop_inv _ _ _ _ _ _ _ _ _ (Nat.le_refl _)) in Hp.
      destruct Hp as [_ Hp]. unfold ret. intros H; inversion H; subst. auto.
    + apply after_loop_inv.
Qed.

(** X1.  No exception leaves the handler: for every request and every
    behaviour of the remote service (rejected calls, bodies that are not
    JSON, documents of any shape) the run ends with a response, and its
    status is 200, 400, 405 or 500. *)
Lemma run_answers (req : request) :
  exists r tr,
    run e req = (Ok r, tr) /\
    (status_code r = 200 \/ status_code r = 400 \/
     status_code r = 405 \/ status_code r = 500)%Z.
Proof.
  unfold run, handler.
  destruct (negb (strict_eq_str (method req) "POST")).
  { eexists _, _. split; [reflexivity|]. cbn. auto. }
  destruct (message_read (body req)) as [m Hm].
  unfold bind at 1. unfold lift at 1. rewrite Hm.
  destruct (negb (truthy m)).
  { eexists _, _. split; [reflexivity|]. cbn. auto. }
  destruct (_ || _).
  { eexists _, _. split; [reflexivity|]. cbn. auto. }
  unfold try_catch.
  destruct (chat e _ _ m []) as [[r|x] tr] eqn:Hc.
  - apply chat_inv in Hc. eexists _, _. split; [reflexivity|]. tauto.
  - eexists _, _. split; [reflexivity|]. cbn. auto.
Qed.

End Codes.

(** C4, as the code has it.  For a POST request the handler answers 400
    with the error [Missing "message" in request body], having performed
    nothing, exactly when the [message] read from the body is falsy: absent,
    [null], [false], 0 or the empty string.  A [message] of another type
    than string passes the check as long as it is truthy. *)
Theorem falsy_message_is_400 (e : environment) (req : request) (m : value) :
  method req = JStr "POST" ->
  get (js_or (body req) (JObj [])) "message" = Ok m ->
  (run e req = (Ok bad_request, []) <-> truthy m = false).
Proof.
  intros Hp Hm. split.
  - intros Hrun. destruct (truthy m) eqn:Ht; [|reflexivity]. exfalso.
    revert Hrun. unfold run, handler.
    rewrite (proj2 (strict_eq_str_true _ _) Hp). cbn [negb].
    unfold bind, lift. rewrite Hm, Ht. cbn [negb].
    destruct (_ || _); [discriminate|].
    unfold try_catch.
    destruct (chat e _ _ m []) as [[r|x] tr] eqn:Hc.
    + apply chat_inv in Hc. intros H; inversion H; subst.
      cbn in Hc. destruct Hc; discriminate.
    + discriminate.
  - intros Ht. unfold run, handler.
    rewrite (proj2 (strict_eq_str_true _ _) Hp). cbn [negb].
    unfold bind, lift. rewrite Hm, Ht. reflexivity.
Qed.

Lemma falsy_message_is_400_witness :
  method Sample.empty_body = JStr "POST" /\
  get (js_or (body Sample.empty_body) (JObj [])) "message" = Ok JUndefined /\
  (run Sample.quick Sample.empty_body = (Ok bad_request, [])
   <-> truthy JUndefined = false).
Proof.
  split; [reflexivity|]. split; [reflexivity|].
  apply (falsy_message_is_400 Sample.quick Sample.empty_body JUndefined);
    reflexivity.
Defined.

(** C4, as stated, fails: the body [{ message: 42 }] has no non-empty
    [message] string, and the request is not rejected; the handler goes on
    to the remote service and answers 200. *)
Lemma number_message_not_rejected :
  has_message_string (body Sample.number_message) = false /\
  fst (run Sample.quick Sample.number_message) = Ok (reply_with (JStr "B")) /\
  fetches (snd (run Sample.quick Sample.number_message)) = 2.
Proof. vm_compute. auto. Qed.

Lemma non_post_is_405_witness :
  method Sample.get_request <> JStr "POST" /\
  run Sample.quick Sample.get_request = (Ok method_not_allowed, []).
Proof.
  split; [discriminate|].
  apply (non_post_is_405 Sample.quick Sample.get_request). discriminate.
Defined.

Lemma missing_configuration_is_500_witness :
  posted_message Sample.hello = Some (JStr "hello") /\
  (COZE_API_TOKEN Sample.no_token = None \/ COZE_BOT_ID Sample.no_token = None) /\
  run Sample.no_token Sample.hello = (Ok misconfigured, []).
Proof.
  split; [reflexivity|]. split; [left; reflexivity|].
  apply (missing_configuration_is_500 Sample.no_token Sample.hello (JStr "hello"));
    [reflexivity | left; reflexivity].
Defined.

(** ** The create call *)

(** C5.  For a POST request that passes the checks, with the configuration
    in place: when the answer to the create call carries a code other than
    0, the handler answers 500 with the remote [msg], or with [Failed to
    start Coze chat] when there is none (or a falsy one), and the create
    call is the only thing the run has done: no poll, no message list. *)
Theorem create_refused_is_500 (e : environment) (req : request)
        (m msg : value) (t b : string) :
  posted_message req = Some m ->
  configured e = Some (t, b) ->
  remote_error (network e 0) = Some msg ->
  run e req
  = (Ok (respond 500 (error_body
           (if truthy msg then msg else JStr "Failed to start Coze chat"))),
     [create_call e t b m]).
Proof.
  intros Hp Hc He. rewrite (run_chat _ _ _ _ _ Hp Hc).
  unfold try_catch, chat. unfold bind at 1.
  rewrite (create_session_error e t b m msg [] He). reflexivity.
Qed.

Lemma create_refused_is_500_witness :
  posted_message Sample.hello = Some (JStr "hello") /\
  configured Sample.refused = Some ("pat_token", "bot_7") /\
  remote_error (network Sample.refused 0) = Some (JStr "authentication is invalid") /\
  run Sample.refused Sample.hello
  = (Ok (respond 500 (error_body (JStr "authentication is invalid"))),
     [create_call Sample.refused "pat_token" "bot_7" (JStr "hello")]).
Proof.
  split; [reflexivity|]. split; [reflexivity|]. split; [reflexivity|].
  apply (create_refused_is_500 Sample.refused Sample.hello (JStr "hello")
           (JStr "authentication is invalid") "pat_token" "bot_7");
    reflexivity.
Defined.

(** ** The reply *)

Lemma get_not_nullish (m : value) (k : string) :
  not_nullish m = true -> exists x, get m k = Ok x.
Proof.
  destruct m; try discriminate; simpl; eauto.
  destruct (lookup k props); eauto.
Qed.

(** On an entry that is not [null], the callback of the filter does not
    throw and is the conjunction of the two tests. *)
Lemma is_answer_not_nullish (m : value) :
  not_nullish m = true -> is_answer m = Ok (assistant_answer m).
Proof.
  intros H. unfold is_answer, assistant_answer.
  destruct (get_not_nullish m "role" H) as [role ->].
  destruct (get_not_nullish m "type" H) as [type ->].
  destruct (strict_eq_str role "assistant"); reflexivity.
Qed.

(** The filter keeps the entries that pass, in their order. *)
Lemma array_filter_is_answer (ms : list value) :
  forallb not_nullish ms = true ->
  array_filter is_answer ms = Ok (filter assistant_answer ms).
Proof.
  induction ms as [|m ms IH]; [reflexivity|].
  simpl. intros H. apply andb_true_iff in H. destruct H as [Hm Hms].
  rewrite (is_answer_not_nullish m Hm), (IH Hms). reflexivity.
Qed.

Lemma assistant_answer_content (m : value) :
  assistant_answer m = true -> get m "content" = Ok (content_of m).
Proof.
  unfold assistant_answer, content_of.
  destruct m; simpl; try discriminate; try reflexivity.
  destruct (lookup "content" props); reflexivity.
Qed.

(** The conditional of line 93 picks the content of the last entry, and the
    empty string when there is none. *)
Lemma pick_reply_last (kept : list value) :
  Forall (fun m => assistant_answer m = true) kept ->
  pick_reply kept = Ok (last (map content_of kept) (JStr "")).
Proof.
  unfold pick_reply. intros H.
  induction H as [|m kept Hm Hk IH]; [reflexivity|].
  destruct kept as [|m' kept'].
  - simpl. apply assistant_answer_content, Hm.
  - change (last (map content_of (m :: m' :: kept')) (JStr ""))
      with (last (map content_of (m' :: kept')) (JStr "")).
    rewrite <- IH.
    replace (List.length (m :: m' :: kept') - 1)
      with (S (List.length (m' :: kept') - 1)) by (simpl; lia).
    reflexivity.
Qed.

Lemma retrieve_reply_listed (e : environment) (t : string) (ci cv : value)
      (c v : string) (ms : list value) (tr : trace) :
  to_string ci = Some c ->
  to_string cv = Some v ->
  listed (network e (fetches tr)) = Some ms ->
  forallb not_nullish ms = true ->
  retrieve_reply e (JStr t) ci cv tr
  = (Ok (reply_with (last (map content_of (filter assistant_answer ms)) (JStr ""))),
     tr ++ [session_call list_base t c v]).
Proof.
  intros Hc Hv Hl Hms. unfold listed in Hl.
  destruct (document (network e (fetches tr))) as [doc|] eqn:Hd; [|discriminate].
  unfold retrieve_reply. unfold bind at 1.
  rewrite (session_get_document e t ci cv c v Hc Hv _ _ _ Hd).
  unfold code_zero in Hl. unfold bind, lift, ret.
  destruct (get doc "code") as [code|]; [|discriminate].
  destruct (strict_eq_num code 0); [|discriminate]. cbn [negb].
  destruct (get doc "data") as [[| | | | |ms'|]|]; try discriminate.
  injection Hl as ->. cbn [call_filter].
  rewrite (array_filter_is_answer ms Hms).
  rewrite pick_reply_last; [reflexivity|].
  apply Forall_forall. intros m Hin. apply filter_In in Hin. tauto.
Qed.

(** C1.  Take a POST request that gets as far as the message list: the
    create call succeeded and the loop has ended, after the trace [tr], with
    the status "completed".  When the answer to the list call has code 0 and
    an array of entries under [data], none of them [null], the handler
    answers 200 with [{ reply }], where [reply] is the [content] of the last
    entry among those with role "assistant" and type "answer", taken in the
    order of the array, and the empty string when no entry is of that kind.
    The ids of the session are strings, as the service sends them, or other
    values that [rendered] converts (numbers only of magnitude below 2^53). *)
Theorem reply_is_last_answer (e : environment) (req : request) (m : value)
        (t b : string) (ci cv s : value) (c v : string)
        (l : locals) (tr : trace) (ms : list value) :
  posted_message req = Some m ->
  configured e = Some (t, b) ->
  created (network e 0) = Some (ci, cv, s) ->
  rendered ci = Some c ->
  rendered cv = Some v ->
  poll_loop e (JStr t) ci cv {| status := s; attempts := 0 |}
    [create_call e t b m] = (Ok (l, None), tr) ->
  status l = JStr "completed" ->
  listed (network e (fetches tr)) = Some ms ->
  forallb not_nullish ms = true ->
  run e req
  = (Ok (reply_with (last (map content_of (filter assistant_answer ms)) (JStr ""))),
     tr ++ [session_call list_base t c v]).
Proof.
  intros Hp Hc Hcr Hci Hcv Hloop Hst Hl Hms.
  apply rendered_to_string in Hci, Hcv.
  rewrite (run_chat _ _ _ _ _ Hp Hc).
  unfold try_catch, chat. unfold bind at 1.
  rewrite (create_session_created e t b m ci cv s [] Hcr).
  unfold bind at 1. cbn [app]. rewrite Hloop. cbn [fst snd].
  unfold after_loop. rewrite Hst. cbn [strict_eq_str negb].
  rewrite String.eqb_refl. cbn [negb].
  rewrite (retrieve_reply_listed e t ci cv c v ms tr Hci Hcv Hl Hms).
  reflexivity.
Qed.

Lemma reply_is_last_answer_witness :
  posted_message Sample.hello = Some (JStr "hello") /\
  configured Sample.quick = Some ("pat_token", "bot_7") /\
  created (network Sample.quick 0)
  = Some (JStr "chat1", JStr "conv1", JStr "completed") /\
  run Sample.quick Sample.hello
  = (Ok (reply_with (JStr "B")),
     [create_call Sample.quick "pat_token" "bot_7" (JStr "hello");
      session_call list_base "pat_token" "chat1" "conv1"]).
Proof.
  split; [reflexivity|]. split; [reflexivity|]. split; [reflexivity|].
  apply (reply_is_last_answer Sample.quick Sample.hello (JStr "hello")
           "pat_token" "bot_7" (JStr "chat1") (JStr "conv1") (JStr "completed")
           "chat1" "conv1"
           {| status := JStr "completed"; attempts := 0 |}
           [create_call Sample.quick "pat_token" "bot_7" (JStr "hello")]
           [Sample.message "assistant" "answer" "A";
            Sample.message "user" "question" "hello";
            Sample.message "assistant" "answer" "B"]);
    reflexivity.
Defined.

(** The two examples of the specification. *)
Example two_answers_reply_B :
  fst (run Sample.quick Sample.hello) = Ok (reply_with (JStr "B")).
Proof. reflexivity. Qed.

Example no_answer_reply_empty :
  fst (run Sample.quick_no_answer Sample.hello) = Ok (reply_with (JStr "")).
Proof. reflexivity. Qed.

(** A [null] entry makes the callback of the filter throw; the [catch]
    turns that into the internal error. *)
Example null_entry_is_internal_error :
  run Sample.quick_null_entry Sample.hello
  = (Ok (respond 500 (error_body (JStr "Internal server error"))),
     [create_call Sample.quick_null_entry "pat_token" "bot_7" (JStr "hello");
      session_call list_base "pat_token" "chat1" "conv1";
      ConsoleError "Coze chat error:" TypeError]).
Proof. reflexivity. Qed.

(** ** From the create call to the end of the loop *)

Section Run.

Variable e : environment.
Variable req : request.
Variable m : value.
Variables t b : string.
Hypothesis posted : posted_message req = Some m.
Hypothesis config : configured e = Some (t, b).

Variables ci cv s : value.
Hypothesis session : created (network e 0) = Some (ci, cv, s).

(** The run is the loop, started after the create call, and then whatever
    ends it. *)
Lemma run_polled :
  run e req
  = try_catch
      (fun tr0 =>
         match poll_loop e (JStr t) ci cv {| status := s; attempts := 0 |} tr0 with
         | (Ok (l, None), tr) => after_loop e (JStr t) ci cv l tr
         | (Ok (_, Some early), tr) => (Ok early, tr)
         | (Throw x, tr) => (Throw x, tr)
         end)
      on_error [create_call e t b m].
Proof.
  rewrite (run_chat _ _ _ _ _ posted config).
  unfold try_catch, chat. unfold bind at 1.
  rewrite (create_session_created e t b m ci cv s [] session).
  cbn [app]. unfold bind, ret.
  destruct (poll_loop _ _ _ _ _ _) as [[[l [early|]]|x] tr]; reflexivity.
Qed.

(** A loop that ends below its test with a status other than "completed"
    ends the run with the incomplete-chat response, and nothing more is
    done. *)
Lemma run_incomplete (l : locals) (tr : trace) (txt : string) :
  poll_loop e (JStr t) ci cv {| status := s; attempts := 0 |}
    [create_call e t b m] = (Ok (l, None), tr) ->
  status l <> JStr "completed" ->
  to_string (status l) = Some txt ->
  run e req = (Ok (incomplete_chat txt), tr).
Proof.
  intros Hloop Hst Htxt. rewrite run_polled. unfold try_catch.
  rewrite Hloop. unfold after_loop.
  rewrite (proj2 (strict_eq_str_false _ _) Hst). cbn [negb].
  unfold bind, lift, template. rewrite Htxt. reflexivity.
Qed.

(** The loop makes no message-list call. *)
Lemma loop_makes_no_list_call (out : result (locals * option response))
      (tr : trace) :
  poll_loop e (JStr t) ci cv {| status := s; attempts := 0 |}
    [create_call e t b m] = (out, tr) ->
  list_calls tr = 0 /\ poll_calls tr <= 30.
Proof.
  intros Hloop.
  apply (poll_loop_inv _ _ _ _ _ _ _ _ _ (Nat.le_refl _)) in Hloop.
  destruct Hloop as [(suffix & -> & [Hl Hp] & Hn) _].
  rewrite list_calls_app, poll_calls_app, Hl, Hp.
  cbn [attempts] in Hn. split; [reflexivity|].
  change (poll_calls [create_call e t b m]) with 0. lia.
Qed.

End Run.

(** ** The polling ceiling *)

(** Thirty polls that all answer "in_progress" use up the loop. *)
Lemma run_stuck (e : environment) (req : request) (m : value) (t b : string)
      (ci cv : value) (c v : string) :
  posted_message req = Some m ->
  configured e = Some (t, b) ->
  created (network e 0) = Some (ci, cv, JStr "in_progress") ->
  to_string ci = Some c ->
  to_string cv = Some v ->
  (forall k, 1 <= k <= 30 ->
     polled_status (network e k) = Some (JStr "in_progress")) ->
  run e req
  = (Ok (incomplete_chat "in_progress"),
     create_call e t b m :: poll_passes 30 t c v).
Proof.
  intros Hp Hc Hcr Hci Hcv Hpolls.
  apply (run_incomplete e req m t b Hp Hc ci cv (JStr "in_progress") Hcr
           {| status := JStr "in_progress"; attempts := 30 |});
    [|discriminate|reflexivity].
  rewrite (poll_loop_in_progress e t ci cv c v Hci Hcv 30 0).
  - apply poll_loop_exit. reflexivity.
  - lia.
  - intros i Hi. apply Hpolls. change (fetches [create_call e t b m]) with 1. lia.
Qed.

(** C2.  First part: when the create call answers "in_progress" and each of
    the polls 1 to 30 answers "in_progress" with code 0, the run is the
    create call followed by exactly thirty passes (wait, poll), whatever the
    service would answer to a further call, and the handler answers 500 with
    [Chat did not complete (status: in_progress)].  Second part: whenever
    the loop ends below its test with a status other than "completed", the
    handler answers 500 with that status in the error text and the run stops
    there, without a message-list call.  The ids of the session and the
    status named in the error are strings, as the service sends them, or
    other values that [rendered] converts (numbers only of magnitude below
    2^53). *)
Theorem incomplete_chat_is_500 :
  (forall (e : environment) (req : request) (m : value) (t b : string)
          (ci cv : value) (c v : string),
      posted_message req = Some m ->
      configured e = Some (t, b) ->
      created (network e 0) = Some (ci, cv, JStr "in_progress") ->
      rendered ci = Some c ->
      rendered cv = Some v ->
      (forall k, 1 <= k <= 30 ->
         polled_status (network e k) = Some (JStr "in_progress")) ->
      run e req
      = (Ok (incomplete_chat "in_progress"),
         create_call e t b m :: poll_passes 30 t c v) /\
      poll_calls (snd (run e req)) = 30 /\
      list_calls (snd (run e req)) = 0)
  /\
  (forall (e : environment) (req : request) (m : value) (t b : string)
          (ci cv s : value) (l : locals) (tr : trace) (txt : string),
      posted_message req = Some m ->
      configured e = Some (t, b) ->
      created (network e 0) = Some (ci, cv, s) ->
      poll_loop e (JStr t) ci cv {| status := s; attempts := 0 |}
        [create_call e t b m] = (Ok (l, None), tr) ->
      status l <> JStr "completed" ->
      rendered (status l) = Some txt ->
      run e req = (Ok (incomplete_chat txt), tr) /\
      list_calls tr = 0).
Proof.
  split.
  - intros e req m t b ci cv c v Hp Hc Hcr Hci Hcv Hpolls.
    apply rendered_to_string in Hci, Hcv.
    rewrite (run_stuck e req m t b ci cv c v Hp Hc Hcr Hci Hcv Hpolls).
    split; [reflexivity|]. cbn [snd].
    change (create_call e t b m :: poll_passes 30 t c v)
      with ([create_call e t b m] ++ poll_passes 30 t c v).
    rewrite poll_calls_app, list_calls_app.
    rewrite poll_calls_poll_passes, list_calls_poll_passes. split; reflexivity.
  - intros e req m t b ci cv s l tr txt Hp Hc Hcr Hloop Hst Htxt.
    apply rendered_to_string in Htxt. split.
    + apply (run_incomplete e req m t b Hp Hc ci cv s Hcr l tr txt Hloop Hst Htxt).
    + apply (loop_makes_no_list_call e m t b ci cv s _ _ Hloop).
Qed.

Lemma incomplete_chat_is_500_witness :
  (posted_message Sample.hello = Some (JStr "hello") /\
   configured Sample.stuck = Some ("pat_token", "bot_7") /\
   created (network Sample.stuck 0)
   = Some (JStr "chat1", JStr "conv1", JStr "in_progress") /\
   (forall k, 1 <= k <= 30 ->
      polled_status (network Sample.stuck k) = Some (JStr "in_progress")) /\
   run Sample.stuck Sample.hello
   = (Ok (incomplete_chat "in_progress"),
      create_call Sample.stuck "pat_token" "bot_7" (JStr "hello")
        :: poll_passes 30 "pat_token" "chat1" "conv1") /\
   poll_calls (snd (run Sample.stuck Sample.hello)) = 30 /\
   list_calls (snd (run Sample.stuck Sample.hello)) = 0)
  /\
  (created (network Sample.failed 0)
   = Some (JStr "chat1", JStr "conv1", JStr "failed") /\
   run Sample.failed Sample.hello
   = (Ok (incomplete_chat "failed"),
      [create_call Sample.failed "pat_token" "bot_7" (JStr "hello")]) /\
   list_calls [create_call Sample.failed "pat_token" "bot_7" (JStr "hello")] = 0).
Proof.
  split.
  - split; [reflexivity|]. split; [reflexivity|]. split; [reflexivity|].
    split; [intros k Hk; reflexivity|].
    apply (proj1 incomplete_chat_is_500 Sample.stuck Sample.hello (JStr "hello")
             "pat_token" "bot_7" (JStr "chat1") (JStr "conv1") "chat1" "conv1");
      reflexivity.
  - split; [reflexivity|].
    apply (proj2 incomplete_chat_is_500 Sample.failed Sample.hello (JStr "hello")
             "pat_token" "bot_7" (JStr "chat1") (JStr "conv1") (JStr "failed")
             {| status := JStr "failed"; attempts := 0 |}
             [create_call Sample.failed "pat_token" "bot_7" (JStr "hello")]
             "failed");
      try reflexivity; discriminate.
Defined.

(** The status is a string in the service's data model, and every JSON
    value converts to a string except an object that shadows [toString].
    With such a status the template literal of line 75 throws, and the
    answer is the internal error of the [catch]. *)
Example unprintable_status_is_internal_error :
  run Sample.odd_status Sample.hello
  = (Ok (respond 500 (error_body (JStr "Internal server error"))),
     [create_call Sample.odd_status "pat_token" "bot_7" (JStr "hello");
      ConsoleError "Coze chat error:" TypeError]).
Proof. reflexivity. Qed.

(** ** How many polls *)

Section Polls.

Variable e : environment.
Variable req : request.
Variable m : value.
Variables t b : string.
Hypothesis posted : posted_message req = Some m.
Hypothesis config : configured e = Some (t, b).

Variables ci cv : value.
Variables c v : string.
Hypothesis chatId_string : to_string ci = Some c.
Hypothesis conversationId_string : to_string cv = Some v.

(** [n] polls answer "in_progress" and the next one answers something
    else: the loop ends after [n + 1] passes, with that status. *)
Lemma poll_loop_until (n : nat) (st : value) :
  n < 30 ->
  (forall k, 1 <= k <= n ->
     polled_status (network e k) = Some (JStr "in_progress")) ->
  polled_status (network e (S n)) = Some st ->
  st <> JStr "in_progress" ->
  poll_loop e (JStr t) ci cv {| status := JStr "in_progress"; attempts := 0 |}
    [create_call e t b m]
  = (Ok ({| status := st; attempts := S n |}, None),
     create_call e t b m :: poll_passes (S n) t c v).
Proof.
  intros Hn Hpolls Hlast Hst.
  rewrite (poll_loop_in_progress e t ci cv c v chatId_string
             conversationId_string n 0); [|lia|].
  - rewrite (poll_loop_polled e t ci cv c v chatId_string
               conversationId_string _ st).
    + rewrite poll_loop_exit.
      * rewrite <- app_assoc, poll_passes_snoc. reflexivity.
      * unfold loop_cond. cbn [status].
        rewrite (proj2 (strict_eq_str_false _ _) Hst). reflexivity.
    + unfold loop_cond. cbn [status attempts strict_eq_str].
      rewrite String.eqb_refl. apply Nat.ltb_lt. lia.
    + rewrite fetches_app, fetches_poll_passes. exact Hlast.
  - intros i Hi. apply Hpolls. change (fetches [create_call e t b m]) with 1. lia.
Qed.

(** With ids that convert to strings the list call is made, whatever it
    comes back with. *)
Lemma retrieve_reply_trace (tr : trace) :
  exists out,
    retrieve_reply e (JStr t) ci cv tr
    = (out, tr ++ [session_call list_base t c v]).
Proof.
  unfold retrieve_reply, session_get, session_url, template, fetch, json_of,
    bind, lift, ret.
  rewrite chatId_string, conversationId_string.
  cbn [authorization template to_string].
  repeat destruct_scrutinee; eexists; reflexivity.
Qed.

End Polls.

(** What follows the loop makes no poll. *)
Lemma after_loop_no_poll (e : environment) (a ci cv : value) (l : locals)
      (tr : trace) (out : result response) (tr' : trace) :
  after_loop e a ci cv l tr = (out, tr') ->
  exists suffix, tr' = tr ++ suffix /\ poll_calls suffix = 0.
Proof.
  unfold after_loop, retrieve_reply, session_get, session_url, fetch, json_of,
    bind, lift, ret.
  repeat destruct_scrutinee; intros H; inversion H; subst; clear H;
    first [ exists []; rewrite app_nil_r; split; reflexivity
          | eexists; split; reflexivity ].
Qed.

(** C3, as the code has it.  When the create call answers "in_progress" and
    the polls answer "in_progress", "in_progress", "completed" (all with
    code 0), the handler makes exactly three poll calls, each after a wait,
    and then the message-list call: the third poll is the one that reads
    "completed".  The ids of the session are strings, as the service sends
    them, or other values that [rendered] converts (numbers only of
    magnitude below 2^53). *)
Theorem three_statuses_three_polls (e : environment) (req : request) (m : value)
        (t b : string) (ci cv : value) (c v : string) :
  posted_message req = Some m ->
  configured e = Some (t, b) ->
  created (network e 0) = Some (ci, cv, JStr "in_progress") ->
  rendered ci = Some c ->
  rendered cv = Some v ->
  polled_status (network e 1) = Some (JStr "in_progress") ->
  polled_status (network e 2) = Some (JStr "in_progress") ->
  polled_status (network e 3) = Some (JStr "completed") ->
  poll_calls (snd (run e req)) = 3 /\
  exists rest,
    snd (run e req)
    = create_call e t b m :: poll_passes 3 t c v
        ++ session_call list_base t c v :: rest /\
    fetches rest = 0.
Proof.
  intros Hp Hc Hcr Hci Hcv H1 H2 H3.
  apply rendered_to_string in Hci, Hcv.
  assert (Hrun : exists rest,
             snd (run e req)
             = create_call e t b m :: poll_passes 3 t c v
                 ++ session_call list_base t c v :: rest /\
             fetches rest = 0).
  { rewrite (run_polled e req m t b Hp Hc ci cv _ Hcr). unfold try_catch.
    rewrite (poll_loop_until e m t b ci cv c v Hci Hcv 2 (JStr "completed"));
      [|lia| |exact H3|discriminate].
    - unfold after_loop. cbn [status].
      rewrite (proj2 (strict_eq_str_true (JStr "completed") "completed") eq_refl).
      cbn [negb].
      destruct (retrieve_reply_trace e t ci cv c v Hci Hcv
                  (create_call e t b m :: poll_passes 3 t c v)) as [out ->].
      destruct out as [r|x].
      + exists []. split; reflexivity.
      + exists [ConsoleError "Coze chat error:" x]. cbn [on_error].
        split; [|reflexivity]. unfold on_error, bind, emit, ret. cbn [snd].
        rewrite <- app_assoc. reflexivity.
    - intros k Hk. assert (Hk' : k = 1 \/ k = 2) by lia.
      destruct Hk' as [-> | ->]; assumption. }
  split; [|exact Hrun].
  destruct Hrun as (rest & -> & Hrest).
  change (create_call e t b m :: poll_passes 3 t c v
            ++ session_call list_base t c v :: rest)
    with ([create_call e t b m] ++ poll_passes 3 t c v
            ++ [session_call list_base t c v] ++ rest).
  rewrite !poll_calls_app, poll_calls_poll_passes.
  assert (Hz : poll_calls rest <= fetches rest).
  { unfold poll_calls, fetches. clear. induction rest as [|ev rest IH]; [reflexivity|].
    destruct ev; cbn [filter is_poll_call is_fetch]; try exact IH.
    destruct (prefix _ url); cbn [List.length]; lia. }
  change (poll_calls [create_call e t b m]) with 0.
  change (poll_calls [session_call list_base t c v]) with 0. lia.
Qed.

Lemma three_statuses_three_polls_witness :
  posted_message Sample.hello = Some (JStr "hello") /\
  configured Sample.three_polls = Some ("pat_token", "bot_7") /\
  created (network Sample.three_polls 0)
  = Some (JStr "chat1", JStr "conv1", JStr "in_progress") /\
  polled_status (network Sample.three_polls 1) = Some (JStr "in_progress") /\
  polled_status (network Sample.three_polls 2) = Some (JStr "in_progress") /\
  polled_status (network Sample.three_polls 3) = Some (JStr "completed") /\
  poll_calls (snd (run Sample.three_polls Sample.hello)) = 3 /\
  exists rest,
    snd (run Sample.three_polls Sample.hello)
    = create_call Sample.three_polls "pat_token" "bot_7" (JStr "hello")
        :: poll_passes 3 "pat_token" "chat1" "conv1"
        ++ session_call list_base "pat_token" "chat1" "conv1" :: rest /\
    fetches rest = 0.
Proof.
  do 6 (split; [reflexivity|]).
  apply (three_statuses_three_polls Sample.three_polls Sample.hello (JStr "hello")
           "pat_token" "bot_7" (JStr "chat1") (JStr "conv1") "chat1" "conv1");
    reflexivity.
Defined.

(** C3, as stated, fails: with the create call answering "in_progress" and
    the polls answering "in_progress", "in_progress", "completed", the
    handler makes three poll calls, not two, before the message list. *)
Lemma three_statuses_not_two_polls :
  created (network Sample.three_polls 0)
  = Some (JStr "chat1", JStr "conv1", JStr "in_progress") /\
  polled_status (network Sample.three_polls 1) = Some (JStr "in_progress") /\
  polled_status (network Sample.three_polls 2) = Some (JStr "in_progress") /\
  polled_status (network Sample.three_polls 3) = Some (JStr "completed") /\
  fst (run Sample.three_polls Sample.hello) = Ok (reply_with (JStr "B")) /\
  poll_calls (snd (run Sample.three_polls Sample.hello)) <> 2.
Proof.
  do 5 (split; [reflexivity|]).
  change (poll_calls (snd (run Sample.three_polls Sample.hello))) with 3.
  discriminate.
Qed.

(** C10.  When the create call succeeds with a status other than
    "in_progress", the body of the loop is never run: the handler makes no
    poll call.  When that status is not "completed" either, the handler
    answers 500 with the incomplete-chat error that names it, the create
    call being all the run has done.  The status is a string, as the service
    sends it, or another value that [rendered] converts (numbers only of
    magnitude below 2^53). *)
Theorem no_poll_unless_in_progress (e : environment) (req : request) (m : value)
        (t b : string) (ci cv s : value) :
  posted_message req = Some m ->
  configured e = Some (t, b) ->
  created (network e 0) = Some (ci, cv, s) ->
  s <> JStr "in_progress" ->
  poll_calls (snd (run e req)) = 0 /\
  (forall txt,
      s <> JStr "completed" ->
      rendered s = Some txt ->
      run e req = (Ok (incomplete_chat txt), [create_call e t b m])).
Proof.
  intros Hp Hc Hcr Hs.
  assert (Hloop : poll_loop e (JStr t) ci cv {| status := s; attempts := 0 |}
                    [create_call e t b m]
                  = (Ok ({| status := s; attempts := 0 |}, None),
                     [create_call e t b m])).
  { apply poll_loop_exit. unfold loop_cond. cbn [status].
    rewrite (proj2 (strict_eq_str_false _ _) Hs). reflexivity. }
  split.
  - rewrite (run_polled e req m t b Hp Hc ci cv s Hcr). unfold try_catch.
    rewrite Hloop.
    destruct (after_loop e (JStr t) ci cv _ _) as [out tr'] eqn:Ha.
    apply after_loop_no_poll in Ha. destruct Ha as (suffix & -> & Hz).
    destruct out as [r|x]; cbn [snd on_error].
    + rewrite poll_calls_app, Hz. reflexivity.
    + unfold on_error, bind, emit, ret. cbn [snd].
      rewrite !poll_calls_app, Hz. reflexivity.
  - intros txt Hnc Htxt. apply rendered_to_string in Htxt.
    apply (run_incomplete e req m t b Hp Hc ci cv s Hcr _ _ txt Hloop Hnc Htxt).
Qed.

Lemma no_poll_unless_in_progress_witness :
  posted_message Sample.hello = Some (JStr "hello") /\
  configured Sample.failed = Some ("pat_token", "bot_7") /\
  created (network Sample.failed 0)
  = Some (JStr "chat1", JStr "conv1", JStr "failed") /\
  JStr "failed" <> JStr "in_progress" /\
  poll_calls (snd (run Sample.failed Sample.hello)) = 0 /\
  (forall txt,
      JStr "failed" <> JStr "completed" ->
      rendered (JStr "failed") = Some txt ->
      run Sample.failed Sample.hello
      = (Ok (incomplete_chat txt),
         [create_call Sample.failed "pat_token" "bot_7" (JStr "hello")])).
Proof.
  do 3 (split; [reflexivity|]). split; [discriminate|].
  apply (no_poll_unless_in_progress Sample.failed Sample.hello (JStr "hello")
           "pat_token" "bot_7" (JStr "chat1") (JStr "conv1") (JStr "failed"));
    try reflexivity; discriminate.
Defined.

(** ** The attempt counter *)

(** C7, as the code has it.  A pass through the loop whose poll succeeds
    (code 0, with a [data] object) raises [attempts] by one, whatever status
    the poll reports.  A pass whose poll reports a remote error returns the
    500 response from inside the loop, before the increment:  [attempts] is
    left as it was.  More generally, whatever the service does, a pass that
    comes back to the test of the loop has raised [attempts] by one, and a
    pass that returns a response has not touched it.  The ids of the session
    are strings, as the service sends them, or other values that [rendered]
    converts (numbers only of magnitude below 2^53). *)
Theorem pass_increments_unless_refused (e : environment) (l : locals) (tr : trace) :
  (forall (t : string) (ci cv : value) (c v : string) (st : value),
      rendered ci = Some c ->
      rendered cv = Some v ->
      polled_status (network e (fetches tr)) = Some st ->
      loop_body e (JStr t) ci cv l tr
      = (Ok ({| status := st; attempts := S (attempts l) |}, None),
         tr ++ poll_pass t c v))
  /\
  (forall (t : string) (ci cv : value) (c v : string) (msg : value),
      rendered ci = Some c ->
      rendered cv = Some v ->
      remote_error (network e (fetches tr)) = Some msg ->
      loop_body e (JStr t) ci cv l tr
      = (Ok (l, Some (upstream_error msg "Error while polling Coze chat")),
         tr ++ poll_pass t c v))
  /\
  (forall (a ci cv : value) (out : result (locals * option response)) (tr' : trace),
      loop_body e a ci cv l tr = (out, tr') ->
      match out with
      | Ok (l', None) => attempts l' = S (attempts l)
      | Ok (l', Some _) => attempts l' = attempts l
      | Throw _ => True
      end).
Proof.
  split; [|split].
  - intros t ci cv c v st Hc Hv Hp. apply rendered_to_string in Hc, Hv.
    apply (loop_body_polled e t ci cv c v Hc Hv l st tr Hp).
  - intros t ci cv c v msg Hc Hv Hp. apply rendered_to_string in Hc, Hv.
    apply (loop_body_error e t ci cv c v Hc Hv l msg tr Hp).
  - intros a ci cv out tr' H. apply loop_body_inv in H. destruct H as [_ H].
    destruct out as [[l' [r|]]|x]; try exact H.
    destruct H as [-> _]. reflexivity.
Qed.

Lemma pass_increments_unless_refused_witness :
  (polled_status (network Sample.stuck 0) = Some (JStr "in_progress") /\
   loop_body Sample.stuck (JStr "pat_token") (JStr "chat1") (JStr "conv1")
     Sample.polling []
   = (Ok ({| status := JStr "in_progress"; attempts := 1 |}, None),
      [] ++ poll_pass "pat_token" "chat1" "conv1"))
  /\
  (remote_error (network Sample.refused 0)
   = Some (JStr "authentication is invalid") /\
   loop_body Sample.refused (JStr "pat_token") (JStr "chat1") (JStr "conv1")
     Sample.polling []
   = (Ok (Sample.polling,
          Some (upstream_error (JStr "authentication is invalid")
                  "Error while polling Coze chat")),
      [] ++ poll_pass "pat_token" "chat1" "conv1"))
  /\
  attempts {| status := JStr "in_progress"; attempts := 1 |}
  = S (attempts Sample.polling).
Proof.
  split; [split; [reflexivity|]|split; [split; [reflexivity|]|]].
  - apply (proj1 (pass_increments_unless_refused Sample.stuck Sample.polling [])
             "pat_token" (JStr "chat1") (JStr "conv1") "chat1" "conv1"
             (JStr "in_progress"));
      reflexivity.
  - apply (proj1 (proj2 (pass_increments_unless_refused Sample.refused
                           Sample.polling []))
             "pat_token" (JStr "chat1") (JStr "conv1") "chat1" "conv1"
             (JStr "authentication is invalid"));
      reflexivity.
  - apply (proj2 (proj2 (pass_increments_unless_refused Sample.stuck
                           Sample.polling []))
             (JStr "pat_token") (JStr "chat1") (JStr "conv1")
             (Ok ({| status := JStr "in_progress"; attempts := 1 |}, None))
             ([] ++ poll_pass "pat_token" "chat1" "conv1")).
    reflexivity.
Defined.

(** C7, as stated, fails: on a poll that reports a remote error the pass
    ends with [attempts] at the value it had, not one more. *)
Lemma refused_poll_keeps_attempts :
  remote_error (network Sample.refused 0)
  = Some (JStr "authentication is invalid") /\
  match loop_body Sample.refused (JStr "pat_token") (JStr "chat1")
          (JStr "conv1") Sample.polling [] with
  | (Ok (l', Some _), _) =>
      attempts l' = attempts Sample.polling /\
      attempts l' <> S (attempts Sample.polling)
  | _ => False
  end.
Proof.
  split; [reflexivity|]. vm_compute. split; [reflexivity|discriminate].
Qed.

(** ** Remote errors and the HTTP status *)

Section Blind.

Variables e e' : environment.
Hypothesis same_token : COZE_API_TOKEN e = COZE_API_TOKEN e'.
Hypothesis same_bot : COZE_BOT_ID e = COZE_BOT_ID e'.
Hypothesis same_clock : date_now e = date_now e'.
Hypothesis same_answers :
  forall n, forget_http_status (network e n) = forget_http_status (network e' n).

Ltac same_answer tr :=
  let H := fresh "H" in
  pose proof (same_answers (fetches tr)) as H;
  destruct (network e (fetches tr)) as [|? [?|]];
  destruct (network e' (fetches tr)) as [|? [?|]];
  cbn in H; try discriminate; try (injection H as ->); try reflexivity.

Lemma create_session_blind (a b m : value) (tr : trace) :
  create_session e a b m tr = create_session e' a b m tr.
Proof.
  unfold create_session, create_payload, fetch, json_of, bind, lift, ret.
  rewrite same_clock. destruct (authorization a); [|reflexivity].
  same_answer tr.
Qed.

Lemma session_get_blind (a ci cv : value) (base : string) (tr : trace) :
  session_get e a ci cv base tr = session_get e' a ci cv base tr.
Proof.
  unfold session_get, fetch, json_of, bind, lift, ret.
  destruct (session_url ci cv base); [|reflexivity].
  destruct (authorization a); [|reflexivity].
  same_answer tr.
Qed.

Lemma loop_body_blind (a ci cv : value) (l : locals) (tr : trace) :
  loop_body e a ci cv l tr = loop_body e' a ci cv l tr.
Proof.
  unfold loop_body, sleep, emit, bind. rewrite session_get_blind. reflexivity.
Qed.

Lemma poll_loop_blind (a ci cv : value) (k : nat) :
  forall (l : locals) (tr : trace),
    30 - attempts l <= k ->
    poll_loop e a ci cv l tr = poll_loop e' a ci cv l tr.
Proof.
  induction k as [|k IH]; intros l tr Hk.
  - assert (Hc : loop_cond l = false).
    { unfold loop_cond. replace (Nat.ltb (attempts l) 30) with false.
      - apply andb_false_r.
      - symmetry. apply Nat.ltb_ge. lia. }
    rewrite !poll_loop_exit by exact Hc. reflexivity.
  - destruct (loop_cond l) eqn:Hc.
    + rewrite !poll_loop_enter by exact Hc. rewrite loop_body_blind.
      destruct (loop_body e' a ci cv l tr) as [[[l1 [early|]]|x] tr1] eqn:Hb;
        try reflexivity.
      apply loop_body_inv in Hb. destruct Hb as [_ Hb].
      apply IH. lia.
    + rewrite !poll_loop_exit by exact Hc. reflexivity.
Qed.

Lemma after_loop_blind (a ci cv : value) (l : locals) (tr : trace) :
  after_loop e a ci cv l tr = after_loop e' a ci cv l tr.
Proof.
  unfold after_loop, retrieve_reply, bind.
  destruct (negb _); [reflexivity|]. rewrite session_get_blind. reflexivity.
Qed.

Lemma chat_blind (a b m : value) (tr : trace) :
  chat e a b m tr = chat e' a b m tr.
Proof.
  unfold chat, bind. rewrite create_session_blind.
  destruct (create_session e' a b m tr) as [[[early|[[ci cv] st]]|x] tr1];
    try reflexivity.
  rewrite (poll_loop_blind _ _ _ _ _ _ (Nat.le_refl _)).
  destruct (poll_loop e' a ci cv _ tr1) as [[[l [early|]]|x] tr2];
    cbn [fst snd]; try reflexivity.
  apply after_loop_blind.
Qed.

(** The handler does not look at the HTTP status of an answer. *)
Lemma run_blind (req : request) : run e req = run e' req.
Proof.
  unfold run, handler, try_catch, bind.
  rewrite same_token, same_bot.
  destruct (negb (strict_eq_str _ _)); [reflexivity|].
  destruct (lift _ _) as [[m|x] tr]; [|reflexivity].
  destruct (negb (truthy m)); [reflexivity|].
  destruct (_ || _); [reflexivity|].
  rewrite chat_blind. reflexivity.
Qed.

End Blind.

Section Refusals.

Variable e : environment.
Variable req : request.
Variable m : value.
Variables t b : string.
Hypothesis posted : posted_message req = Some m.
Hypothesis config : configured e = Some (t, b).

Lemma run_create_refused (msg : value) :
  remote_error (network e 0) = Some msg ->
  run e req
  = (Ok (upstream_error msg "Failed to start Coze chat"), [create_call e t b m]).
Proof.
  intros He. rewrite (run_chat _ _ _ _ _ posted config).
  unfold try_catch, chat. unfold bind at 1.
  rewrite (create_session_error e t b m msg [] He). reflexivity.
Qed.

Variables ci cv : value.
Variables c v : string.
Hypothesis chatId_string : to_string ci = Some c.
Hypothesis conversationId_string : to_string cv = Some v.

Lemma run_poll_refused (n : nat) (msg : value) :
  created (network e 0) = Some (ci, cv, JStr "in_progress") ->
  n < 30 ->
  (forall k, 1 <= k <= n ->
     polled_status (network e k) = Some (JStr "in_progress")) ->
  remote_error (network e (S n)) = Some msg ->
  run e req
  = (Ok (upstream_error msg "Error while polling Coze chat"),
     create_call e t b m :: poll_passes (S n) t c v).
Proof.
  intros Hcr Hn Hpolls He.
  rewrite (run_polled e req m t b posted config ci cv _ Hcr). unfold try_catch.
  rewrite (poll_loop_in_progress e t ci cv c v chatId_string
             conversationId_string n 0); [|lia|].
  - rewrite (poll_loop_error e t ci cv c v chatId_string
               conversationId_string _ msg).
    + rewrite <- app_assoc, poll_passes_snoc. reflexivity.
    + unfold loop_cond. cbn [status attempts strict_eq_str].
      rewrite String.eqb_refl. apply Nat.ltb_lt. lia.
    + rewrite fetches_app, fetches_poll_passes. exact He.
  - intros i Hi. apply Hpolls. change (fetches [create_call e t b m]) with 1. lia.
Qed.

Lemma retrieve_reply_error (msg : value) (tr : trace) :
  remote_error (network e (fetches tr)) = Some msg ->
  retrieve_reply e (JStr t) ci cv tr
  = (Ok (upstream_error msg "Failed to fetch chat messages"),
     tr ++ [session_call list_base t c v]).
Proof.
  intros H. unfold remote_error in H.
  destruct (document (network e (fetches tr))) as [doc|] eqn:Hd; [|discriminate].
  unfold retrieve_reply. unfold bind at 1.
  rewrite (session_get_document e t ci cv c v chatId_string
             conversationId_string _ _ _ Hd).
  unfold bind, lift, ret.
  destruct (get doc "code") as [code|]; [|discriminate].
  destruct (get doc "msg") as [msg'|]; [|discriminate].
  destruct (strict_eq_num code 0); [discriminate|]. cbn [negb].
  injection H as ->. reflexivity.
Qed.

Lemma run_list_refused (s : value) (l : locals) (tr : trace) (msg : value) :
  created (network e 0) = Some (ci, cv, s) ->
  poll_loop e (JStr t) ci cv {| status := s; attempts := 0 |}
    [create_call e t b m] = (Ok (l, None), tr) ->
  status l = JStr "completed" ->
  remote_error (network e (fetches tr)) = Some msg ->
  run e req
  = (Ok (upstream_error msg "Failed to fetch chat messages"),
     tr ++ [session_call list_base t c v]).
Proof.
  intros Hcr Hloop Hst He.
  rewrite (run_polled e req m t b posted config ci cv _ Hcr). unfold try_catch.
  rewrite Hloop. unfold after_loop. rewrite Hst.
  rewrite (proj2 (strict_eq_str_true (JStr "completed") "completed") eq_refl).
  cbn [negb]. rewrite (retrieve_reply_error msg tr He). reflexivity.
Qed.

End Refusals.

(** C6, as the code has it.  For each of the three outbound calls (create,
    poll, message list), an answer whose response-level code is not 0 makes
    the handler answer 500 with the remote message, or the default text of
    that call when there is none; nothing is called after it.  The HTTP
    status of an answer plays no part: two services whose answers differ
    only in their HTTP status get the same run.  The ids of the session are
    strings, as the service sends them, or other values that [rendered]
    converts (numbers only of magnitude below 2^53). *)
Theorem remote_code_errors_are_500 :
  (forall (e : environment) (req : request) (m : value) (t b : string)
          (msg : value),
      posted_message req = Some m ->
      configured e = Some (t, b) ->
      remote_error (network e 0) = Some msg ->
      run e req
      = (Ok (upstream_error msg "Failed to start Coze chat"),
         [create_call e t b m]))
  /\
  (forall (e : environment) (req : request) (m : value) (t b : string)
          (ci cv : value) (c v : string) (n : nat) (msg : value),
      posted_message req = Some m ->
      configured e = Some (t, b) ->
      rendered ci = Some c ->
      rendered cv = Some v ->
      created (network e 0) = Some (ci, cv, JStr "in_progress") ->
      n < 30 ->
      (forall k, 1 <= k <= n ->
         polled_status (network e k) = Some (JStr "in_progress")) ->
      remote_error (network e (S n)) = Some msg ->
      run e req
      = (Ok (upstream_error msg "Error while polling Coze chat"),
         create_call e t b m :: poll_passes (S n) t c v))
  /\
  (forall (e : environment) (req : request) (m : value) (t b : string)
          (ci cv : value) (c v : string) (s : value) (l : locals)
          (tr : trace) (msg : value),
      posted_message req = Some m ->
      configured e = Some (t, b) ->
      rendered ci = Some c ->
      rendered cv = Some v ->
      created (network e 0) = Some (ci, cv, s) ->
      poll_loop e (JStr t) ci cv {| status := s; attempts := 0 |}
        [create_call e t b m] = (Ok (l, None), tr) ->
      status l = JStr "completed" ->
      remote_error (network e (fetches tr)) = Some msg ->
      run e req
      = (Ok (upstream_error msg "Failed to fetch chat messages"),
         tr ++ [session_call list_base t c v]))
  /\
  (forall (msg : value) (fallback : string),
      status_code (upstream_error msg fallback) = 500%Z /\
      json_body (upstream_error msg fallback)
      = error_body (if truthy msg then msg else JStr fallback))
  /\
  (forall (e e' : environment) (req : request),
      COZE_API_TOKEN e = COZE_API_TOKEN e' ->
      COZE_BOT_ID e = COZE_BOT_ID e' ->
      date_now e = date_now e' ->
      (forall n,
         forget_http_status (network e n) = forget_http_status (network e' n)) ->
      run e req = run e' req).
Proof.
  split; [|split; [|split; [|split]]].
  - intros e req m t b msg Hp Hc He. apply (run_create_refused e req m t b Hp Hc msg He).
  - intros e req m t b ci cv c v n msg Hp Hc Hci Hcv Hcr Hn Hpolls He.
    apply rendered_to_string in Hci, Hcv.
    apply (run_poll_refused e req m t b Hp Hc ci cv c v Hci Hcv n msg Hcr Hn Hpolls He).
  - intros e req m t b ci cv c v s l tr msg Hp Hc Hci Hcv Hcr Hloop Hst He.
    apply rendered_to_string in Hci, Hcv.
    apply (run_list_refused e req m t b Hp Hc ci cv c v Hci Hcv s l tr msg
             Hcr Hloop Hst He).
  - intros msg fallback. split; reflexivity.
  - intros e e' req Ht Hb Hd Hn. apply (run_blind e e' Ht Hb Hd Hn req).
Qed.

Lemma remote_code_errors_are_500_witness :
  (remote_error (network Sample.refused 0)
   = Some (JStr "authentication is invalid") /\
   run Sample.refused Sample.hello
   = (Ok (upstream_error (JStr "authentication is invalid")
            "Failed to start Coze chat"),
      [create_call Sample.refused "pat_token" "bot_7" (JStr "hello")]))
  /\
  (polled_status (network Sample.poll_refused 1) = Some (JStr "in_progress") /\
   remote_error (network Sample.poll_refused 2)
   = Some (JStr "authentication is invalid") /\
   run Sample.poll_refused Sample.hello
   = (Ok (upstream_error (JStr "authentication is invalid")
            "Error while polling Coze chat"),
      create_call Sample.poll_refused "pat_token" "bot_7" (JStr "hello")
        :: poll_passes 2 "pat_token" "chat1" "conv1"))
  /\
  (remote_error (network Sample.list_refused 1)
   = Some (JStr "authentication is invalid") /\
   run Sample.list_refused Sample.hello
   = (Ok (upstream_error (JStr "authentication is invalid")
            "Failed to fetch chat messages"),
      [create_call Sample.list_refused "pat_token" "bot_7" (JStr "hello")]
        ++ [session_call list_base "pat_token" "chat1" "conv1"]))
  /\
  run Sample.quick Sample.hello = run Sample.bad_gateway Sample.hello.
Proof.
  split; [|split; [|split]].
  - split; [reflexivity|].
    apply (proj1 remote_code_errors_are_500 Sample.refused Sample.hello
             (JStr "hello") "pat_token" "bot_7"
             (JStr "authentication is invalid"));
      reflexivity.
  - split; [reflexivity|]. split; [reflexivity|].
    apply (proj1 (proj2 remote_code_errors_are_500) Sample.poll_refused
             Sample.hello (JStr "hello") "pat_token" "bot_7"
             (JStr "chat1") (JStr "conv1") "chat1" "conv1" 1
             (JStr "authentication is invalid"));
      try reflexivity.
    + lia.
    + intros k Hk. assert (Hk1 : k = 1) by lia. rewrite Hk1. reflexivity.
  - split; [reflexivity|].
    apply (proj1 (proj2 (proj2 remote_code_errors_are_500)) Sample.list_refused
             Sample.hello (JStr "hello") "pat_token" "bot_7"
             (JStr "chat1") (JStr "conv1") "chat1" "conv1" (JStr "completed")
             {| status := JStr "completed"; attempts := 0 |}
             [create_call Sample.list_refused "pat_token" "bot_7" (JStr "hello")]
             (JStr "authentication is invalid"));
      reflexivity.
  - apply (proj2 (proj2 (proj2 (proj2 remote_code_errors_are_500)))
             Sample.quick Sample.bad_gateway Sample.hello);
      try reflexivity.
    intros n. destruct n as [|n]; reflexivity.
Defined.

(** C6, as stated, fails on the HTTP status: a service that answers every
    call with HTTP status 503, and bodies that say code 0, is not treated as
    failing; the handler answers 200 with the reply. *)
Lemma bad_http_status_not_an_error :
  (forall n, exists doc,
      network Sample.bad_gateway n = FetchResponse 503 (Some doc)) /\
  fst (run Sample.bad_gateway Sample.hello) = Ok (reply_with (JStr "B")) /\
  status_code (reply_with (JStr "B")) = 200%Z.
Proof.
  split; [|split; reflexivity].
  intros n. destruct n as [|n]; eexists; reflexivity.
Qed.

(** ** The shape of every run *)

Lemma logs_app (tr tr' : trace) : logs (tr ++ tr') = logs tr + logs tr'.
Proof. unfold logs. now rewrite filter_app, length_app. Qed.

Lemma waited_app (tr tr' : trace) : waited (tr ++ tr') = (waited tr + waited tr')%Z.
Proof.
  induction tr as [|ev tr IH]; [reflexivity|].
  destruct ev; cbn [app waited]; rewrite IH; lia.
Qed.

Lemma poll_calls_le_fetches (tr : trace) : poll_calls tr <= fetches tr.
Proof.
  unfold poll_calls, fetches. induction tr as [|ev tr IH]; [reflexivity|].
  destruct ev; cbn [filter is_poll_call is_fetch]; try exact IH.
  destruct (prefix _ url); cbn [List.length]; lia.
Qed.

Lemma list_calls_le_fetches (tr : trace) : list_calls tr <= fetches tr.
Proof.
  unfold list_calls, fetches. induction tr as [|ev tr IH]; [reflexivity|].
  destruct ev; cbn [filter is_list_call is_fetch]; try exact IH.
  destruct (prefix _ url); cbn [List.length]; lia.
Qed.

(** What the events after the create call have in common. *)
Lemma session_event_facts (t : string) (suffix : trace) :
  Forall (session_event t) suffix ->
  forallb (authorised t) suffix = true /\
  forallb (fun ev => negb (carries_payload ev)) suffix = true /\
  logs suffix = 0 /\
  (0 <= waited suffix)%Z.
Proof.
  induction 1 as [|ev suffix Hev _ IH]; [repeat split; reflexivity|].
  destruct IH as (Ha & Hp & Hl & Hw).
  destruct Hev as [-> | [url ->]].
  - cbn [forallb authorised carries_payload negb andb waited].
    change (logs (Sleep 1000 :: suffix)) with (logs suffix).
    repeat split; try assumption. lia.
  - cbn [forallb carries_payload negb andb waited payload].
    change (logs (Fetch url _ :: suffix)) with (logs suffix).
    repeat split; try assumption.
    cbn [authorised has_header headers existsb fst snd].
    rewrite !String.eqb_refl. exact Ha.
Qed.

Section Shape.

Variable e : environment.
Variable t : string.

(** One pass adds a wait of one second and at most one GET. *)
Lemma loop_body_events (ci cv : value) (l : locals) (tr : trace)
      (out : result (locals * option response)) (tr' : trace) :
  loop_body e (JStr t) ci cv l tr = (out, tr') ->
  exists suffix,
    tr' = tr ++ suffix /\
    Forall (session_event t) suffix /\
    waited suffix = 1000%Z /\
    match out with
    | Ok (_, None) => fetches suffix = 1
    | _ => True
    end.
Proof.
  unfold loop_body, session_get, sleep, emit, fetch, json_of, bind, lift, ret.
  cbn [authorization template to_string].
  repeat destruct_scrutinee;
    intros H; inversion H; subst; clear H;
    (eexists; split; [rewrite <- ?app_assoc; reflexivity|]);
    (split;
     [ repeat (apply Forall_cons;
               [first [left; reflexivity | right; eexists; reflexivity]|]);
       apply Forall_nil |]);
    (split; [reflexivity|]); try exact I; reflexivity.
Qed.

(** The loop adds only such passes: at most one second of wait for each
    attempt the ceiling leaves, no log, and, when it ends below its test,
    as many calls as [attempts] has grown. *)
Lemma poll_loop_events (ci cv : value) (k : nat) :
  forall (l : locals) (tr : trace)
         (out : result (locals * option response)) (tr' : trace),
    30 - attempts l <= k ->
    poll_loop e (JStr t) ci cv l tr = (out, tr') ->
    exists suffix,
      tr' = tr ++ suffix /\
      Forall (session_event t) suffix /\
      (waited suffix <= 1000 * Z.of_nat (30 - attempts l))%Z /\
      match out with
      | Ok (l', None) =>
          attempts l <= attempts l' /\
          fetches suffix = attempts l' - attempts l
      | _ => True
      end.
Proof.
  induction k as [|k IH]; intros l tr out tr' Hk Hrun.
  - assert (Hc : loop_cond l = false).
    { unfold loop_cond. replace (Nat.ltb (attempts l) 30) with false.
      - apply andb_false_r.
      - symmetry. apply Nat.ltb_ge. lia. }
    rewrite (poll_loop_exit _ _ _ _ _ _ Hc) in Hrun.
    inversion Hrun; subst; clear Hrun.
    exists []. rewrite app_nil_r. split; [reflexivity|].
      split; [apply Forall_nil|]. split; [cbn [waited]; lia|].
      change (fetches []) with 0. lia.
  - destruct (loop_cond l) eqn:Hc.
    + rewrite (poll_loop_enter _ _ _ _ _ _ Hc) in Hrun.
      assert (Hlt : attempts l < 30).
      { unfold loop_cond in Hc. apply andb_true_iff in Hc.
        destruct Hc as [_ Hc]. now apply Nat.ltb_lt in Hc. }
      destruct (loop_body e (JStr t) ci cv l tr) as [r tr1] eqn:Hb.
      pose proof (loop_body_inv _ _ _ _ _ _ _ _ Hb) as [_ Hinc].
      apply loop_body_events in Hb.
      destruct Hb as (s1 & -> & Hs1 & Hw1 & Hf1).
      destruct r as [[l1 [early|]]|x].
      * inversion Hrun; subst; clear Hrun.
        exists s1. split; [reflexivity|]. split; [assumption|].
        split; [lia|exact I].
      * apply IH in Hrun; [|lia].
        destruct Hrun as (s2 & -> & Hs2 & Hw2 & Hout).
        exists (s1 ++ s2). rewrite app_assoc. split; [reflexivity|].
        split; [apply Forall_app; split; assumption|].
        split; [rewrite waited_app; lia|].
        destruct out as [[l' [r|]]|x]; try exact I.
        rewrite fetches_app. lia.
      * inversion Hrun; subst; clear Hrun.
        exists s1. split; [reflexivity|]. split; [assumption|].
        split; [lia|exact I].
    + rewrite (poll_loop_exit _ _ _ _ _ _ Hc) in Hrun.
      inversion Hrun; subst; clear Hrun.
      exists []. rewrite app_nil_r. split; [reflexivity|].
      split; [apply Forall_nil|]. split; [cbn [waited]; lia|].
      change (fetches []) with 0. lia.
Qed.

End Shape.

Section RunShape.

Variable e : environment.
Variables t b : string.
Variable m : value.

(** The create call is made, whatever it comes back with. *)
Lemma create_session_trace (tr : trace) :
  exists out,
    create_session e (JStr t) (JStr b) m tr = (out, tr ++ [create_call e t b m]).
Proof.
  unfold create_session, fetch, json_of, bind, lift, ret.
  cbn [authorization template to_string].
  repeat destruct_scrutinee; eexists; reflexivity.
Qed.

(** What follows the loop: no wait, no poll, at most the list call. *)
Lemma after_loop_events (ci cv : value) (l : locals) (tr : trace)
      (out : result response) (tr' : trace) :
  after_loop e (JStr t) ci cv l tr = (out, tr') ->
  exists suffix,
    tr' = tr ++ suffix /\
    Forall (session_event t) suffix /\
    waited suffix = 0%Z /\
    poll_calls suffix = 0 /\
    fetches suffix <= 1 /\
    list_calls suffix = fetches suffix.
Proof.
  unfold after_loop, retrieve_reply, session_get, session_url, fetch, json_of,
    bind, lift, ret.
  cbn [authorization template to_string].
  repeat destruct_scrutinee; intros H; inversion H; subst; clear H;
    first [ exists []; rewrite app_nil_r; split; [reflexivity|];
            split; [apply Forall_nil|]; repeat split; cbn; lia
          | eexists; split; [reflexivity|];
            split; [apply Forall_cons;
                    [right; eexists; reflexivity|apply Forall_nil]|];
            repeat split; cbn; lia ].
Qed.

(** The [try] block: the create call, then waits and authorised GETs. *)
Lemma chat_events (out : result response) (tr' : trace) :
  chat e (JStr t) (JStr b) m [] = (out, tr') ->
  exists rest,
    tr' = create_call e t b m :: rest /\
    Forall (session_event t) rest /\
    (waited rest <= 30000)%Z /\
    poll_calls rest <= 30 /\
    list_calls rest <= 1 /\
    fetches rest <= 31.
Proof.
  unfold chat. unfold bind at 1.
  destruct (create_session_trace []) as [created ->]. cbn [app].
  destruct created as [[early|[[ci cv] st]]|x].
  - unfold ret. intros H; inversion H; subst.
    exists []. repeat split; try apply Forall_nil; cbn; lia.
  - unfold bind.
    destruct (poll_loop e (JStr t) ci cv {| status := st; attempts := 0 |}
                [create_call e t b m]) as [polled tr1] eqn:Hloop.
    pose proof (poll_loop_inv _ _ _ _ _ _ _ _ _ (Nat.le_refl _) Hloop)
      as [(s0 & Htr0 & [Hl0 Hp0] & Hn0) _].
    apply (poll_loop_events _ _ _ _ _ _ _ _ _ (Nat.le_refl _)) in Hloop.
    destruct Hloop as (s1 & -> & Hs1 & Hw1 & _).
    apply app_inv_head in Htr0. subst s0. cbn [attempts] in Hn0, Hw1.
    assert (Hbase : forall s2,
               Forall (session_event t) s2 -> waited s2 = 0%Z ->
               poll_calls s2 = 0 -> fetches s2 <= 1 ->
               exists rest,
                 [create_call e t b m] ++ s1 ++ s2 = create_call e t b m :: rest /\
                 Forall (session_event t) rest /\
                 (waited rest <= 30000)%Z /\
                 poll_calls rest <= 30 /\
                 list_calls rest <= 1 /\
                 fetches rest <= 31).
    { intros s2 Hs2 Hw2 Hp2 Hf2. exists (s1 ++ s2). split; [reflexivity|].
      split; [apply Forall_app; split; assumption|].
      rewrite waited_app, poll_calls_app, list_calls_app, fetches_app.
      pose proof (list_calls_le_fetches s2). repeat split; lia. }
    destruct polled as [[l [early|]]|x]; cbn [fst snd].
    + unfold ret. intros H; inversion H; subst.
      destruct (Hbase [] (Forall_nil _) eq_refl eq_refl (Nat.le_0_l _))
        as (rest & Hrest & Hfacts).
      exists rest. rewrite app_nil_r in Hrest. split; [exact Hrest|exact Hfacts].
    + intros Ha. apply after_loop_events in Ha.
      destruct Ha as (s2 & -> & Hs2 & Hw2 & Hp2 & Hf2 & _).
      rewrite <- app_assoc. apply Hbase; assumption.
    + intros H; inversion H; subst.
      destruct (Hbase [] (Forall_nil _) eq_refl eq_refl (Nat.le_0_l _))
        as (rest & Hrest & Hfacts).
      exists rest. rewrite app_nil_r in Hrest. split; [exact Hrest|exact Hfacts].
  - intros H; inversion H; subst.
    exists []. repeat split; try apply Forall_nil; cbn; lia.
Qed.

End RunShape.

(** The handler either stops at one of its three checks, with nothing done,
    or runs the [try] block for a request that passes them. *)
Lemma run_cases (e : environment) (req : request) :
  run e req = (Ok method_not_allowed, []) \/
  run e req = (Ok bad_request, []) \/
  run e req = (Ok misconfigured, []) \/
  exists m t b, posted_message req = Some m /\ configured e = Some (t, b).
Proof.
  destruct (strict_eq_str (method req) "POST") eqn:Hm.
  - destruct (posted_message req) as [m|] eqn:Hp.
    + destruct (configured e) as [[t b]|] eqn:Hc.
      * right. right. right. exists m, t, b. split; reflexivity.
      * right. right. left. apply (not_configured_is_500 e req m Hp Hc).
    + right. left. unfold run, handler. rewrite Hm. cbn [negb].
      unfold posted_message in Hp. rewrite Hm in Hp. unfold bind, lift.
      destruct (get _ "message") as [v|x] eqn:Hg.
      * destruct (truthy v); [discriminate|reflexivity].
      * destruct (message_read (body req)) as [v Hv]. congruence.
  - left. unfold run, handler. rewrite Hm. reflexivity.
Qed.

(** A run of the [try] block, seen from outside: the events of the block,
    and one log line at the end exactly when the block threw, in which case
    the response is the internal error. *)
Lemma run_shape (e : environment) (req : request) (m : value) (t b : string) :
  posted_message req = Some m ->
  configured e = Some (t, b) ->
  exists rest tail,
    snd (run e req) = create_call e t b m :: rest ++ tail /\
    Forall (session_event t) rest /\
    (waited rest <= 30000)%Z /\
    poll_calls rest <= 30 /\
    list_calls rest <= 1 /\
    fetches rest <= 31 /\
    (tail = [] \/
     exists x, tail = [ConsoleError "Coze chat error:" x] /\
               fst (run e req) = Ok internal_error).
Proof.
  intros Hp Hc. rewrite (run_chat _ _ _ _ _ Hp Hc). unfold try_catch.
  destruct (chat e (JStr t) (JStr b) m []) as [out tr'] eqn:Hchat.
  apply chat_events in Hchat. destruct Hchat as (rest & -> & Hfacts).
  destruct out as [r|x].
  - exists rest, []. rewrite app_nil_r. cbn [snd].
    split; [reflexivity|]. repeat split; try apply Hfacts. left. reflexivity.
  - exists rest, [ConsoleError "Coze chat error:" x].
    unfold on_error, bind, emit, ret. cbn [fst snd].
    split; [reflexivity|]. repeat split; try apply Hfacts.
    right. exists x. split; reflexivity.
Qed.

(** ** Bounds and what a run never does *)

(** X2.  Whatever the request and whatever the remote service answers, a
    run makes at most 32 outbound calls, of which at most 30 are polls and
    at most one is the message-list call; it waits at most 30 seconds in
    all, and it writes at most one line to the log. *)
Theorem run_is_bounded (e : environment) (req : request) :
  fetches (snd (run e req)) <= 32 /\
  poll_calls (snd (run e req)) <= 30 /\
  list_calls (snd (run e req)) <= 1 /\
  (0 <= waited (snd (run e req)) <= 30000)%Z /\
  logs (snd (run e req)) <= 1.
Proof.
  destruct (run_cases e req) as [H|[H|[H|(m & t & b & Hp & Hc)]]];
    try (rewrite H; cbn; repeat split; lia).
  destruct (run_shape e req m t b Hp Hc)
    as (rest & tail & -> & Hev & Hw & Hpo & Hli & Hfe & Htail).
  apply session_event_facts in Hev. destruct Hev as (_ & _ & Hlog & Hw0).
  change (create_call e t b m :: rest ++ tail)
    with ([create_call e t b m] ++ rest ++ tail).
  rewrite !fetches_app, !poll_calls_app, !list_calls_app, !waited_app, !logs_app.
  change (fetches [create_call e t b m]) with 1.
  change (poll_calls [create_call e t b m]) with 0.
  change (list_calls [create_call e t b m]) with 0.
  change (waited [create_call e t b m]) with 0%Z.
  change (logs [create_call e t b m]) with 0.
  destruct Htail as [-> | (x & -> & _)]; cbn; repeat split; lia.
Qed.

(** X3.  The log and the response go together: either nothing is logged, or
    exactly one line is, as the last thing the run does, and then the
    response is the 500 [Internal server error], which carries nothing of
    the exception. *)
Theorem log_means_internal_error (e : environment) (req : request) :
  logs (snd (run e req)) = 0 \/
  (fst (run e req) = Ok internal_error /\
   exists before x,
     snd (run e req) = before ++ [ConsoleError "Coze chat error:" x] /\
     logs before = 0).
Proof.
  destruct (run_cases e req) as [H|[H|[H|(m & t & b & Hp & Hc)]]];
    try (left; rewrite H; reflexivity).
  destruct (run_shape e req m t b Hp Hc)
    as (rest & tail & Htr & Hev & _ & _ & _ & _ & Htail).
  apply session_event_facts in Hev. destruct Hev as (_ & _ & Hlog & _).
  assert (Hbefore : logs (create_call e t b m :: rest) = 0).
  { change (create_call e t b m :: rest) with ([create_call e t b m] ++ rest).
    rewrite logs_app, Hlog. reflexivity. }
  destruct Htail as [-> | (x & -> & Hint)].
  - left. rewrite Htr, app_nil_r. exact Hbefore.
  - right. split; [exact Hint|].
    exists (create_call e t b m :: rest), x. split; [exact Htr|exact Hbefore].
Qed.

(** X4.  Credentials: without both environment variables set and not empty
    no outbound call is made, and with them every outbound call of the run
    carries the header [Authorization: Bearer <token>]. *)
Theorem every_call_authorised (e : environment) (req : request) :
  (configured e = None -> fetches (snd (run e req)) = 0) /\
  (forall t b,
      configured e = Some (t, b) ->
      forallb (authorised t) (snd (run e req)) = true).
Proof.
  destruct (run_cases e req) as [H|[H|[H|(m & t & b & Hp & Hc)]]];
    try (rewrite H; split; intros; reflexivity).
  split; [congruence|]. intros t' b' Hc'.
  assert (Heq : (t', b') = (t, b)) by congruence. injection Heq as -> ->.
  destruct (run_shape e req m t b Hp Hc)
    as (rest & tail & -> & Hev & _ & _ & _ & _ & Htail).
  apply session_event_facts in Hev. destruct Hev as (Hauth & _).
  change (create_call e t b m :: rest ++ tail)
    with ([create_call e t b m] ++ rest ++ tail).
  rewrite !forallb_app, Hauth.
  assert (Hcreate : forallb (authorised t) [create_call e t b m] = true).
  { cbn [forallb create_call authorised has_header headers existsb fst snd].
    rewrite !String.eqb_refl. reflexivity. }
  rewrite Hcreate. destruct Htail as [-> | (x & -> & _)]; reflexivity.
Qed.

Lemma every_call_authorised_witness :
  (configured Sample.no_token = None /\
   fetches (snd (run Sample.no_token Sample.hello)) = 0) /\
  (configured Sample.three_polls = Some ("pat_token", "bot_7") /\
   forallb (authorised "pat_token") (snd (run Sample.three_polls Sample.hello))
   = true).
Proof.
  split; (split; [reflexivity|]).
  - apply (proj1 (every_call_authorised Sample.no_token Sample.hello)).
    reflexivity.
  - apply (proj2 (every_call_authorised Sample.three_polls Sample.hello)
             "pat_token" "bot_7").
    reflexivity.
Defined.

(** X5.  A request that passes the checks, with the configuration in place,
    starts with the create call, which carries the message as it came, as
    the content of the single additional message; no later call of the run
    has a request body. *)
Theorem message_sent_once (e : environment) (req : request) (m : value)
        (t b : string) :
  posted_message req = Some m ->
  configured e = Some (t, b) ->
  get (create_payload e (JStr b) m) "additional_messages"
  = Ok (JArr [JObj [("role", JStr "user"); ("content", m);
                    ("content_type", JStr "text")]]) /\
  exists rest,
    snd (run e req) = create_call e t b m :: rest /\
    forallb (fun ev => negb (carries_payload ev)) rest = true.
Proof.
  intros Hp Hc. split; [reflexivity|].
  destruct (run_shape e req m t b Hp Hc)
    as (rest & tail & -> & Hev & _ & _ & _ & _ & Htail).
  apply session_event_facts in Hev. destruct Hev as (_ & Hpay & _).
  exists (rest ++ tail). split; [reflexivity|].
  rewrite forallb_app, Hpay.
  destruct Htail as [-> | (x & -> & _)]; reflexivity.
Qed.

Lemma message_sent_once_witness :
  posted_message Sample.number_message = Some (JNum 42) /\
  configured Sample.three_polls = Some ("pat_token", "bot_7") /\
  get (create_payload Sample.three_polls (JStr "bot_7") (JNum 42))
      "additional_messages"
  = Ok (JArr [JObj [("role", JStr "user"); ("content", JNum 42);
                    ("content_type", JStr "text")]]) /\
  exists rest,
    snd (run Sample.three_polls Sample.number_message)
    = create_call Sample.three_polls "pat_token" "bot_7" (JNum 42) :: rest /\
    forallb (fun ev => negb (carries_payload ev)) rest = true.
Proof.
  split; [reflexivity|]. split; [reflexivity|].
  apply (message_sent_once Sample.three_polls Sample.number_message (JNum 42)
           "pat_token" "bot_7");
    reflexivity.
Defined.

(** ** Answers the handler cannot use *)

(** X6.  The create call comes back with something that is neither a
    success with [data] nor a remote error: the call is rejected (network
    failure), the body is not JSON, the document is [null], or it says code
    0 without a [data] object.  The exception is caught: the handler answers
    500 [Internal server error], logs once, and makes no further call. *)
Theorem unusable_create_answer_is_internal_error (e : environment)
        (req : request) (m : value) (t b : string) :
  posted_message req = Some m ->
  configured e = Some (t, b) ->
  created (network e 0) = None ->
  remote_error (network e 0) = None ->
  exists x,
    run e req
    = (Ok internal_error,
       [create_call e t b m; ConsoleError "Coze chat error:" x]).
Proof.
  intros Hp Hc Hcr Herr. rewrite (run_chat _ _ _ _ _ Hp Hc).
  revert Hcr Herr.
  unfold created, remote_error, document, code_zero.
  unfold try_catch, chat, create_session, fetch, json_of, bind, lift, ret, on_error,
    bind, emit, ret.
  cbn [authorization template to_string fetches filter List.length app].
  destruct (network e 0) as [|hs [doc|]]; cbn [snd];
    try (intros _ _; eexists; reflexivity).
  destruct (get doc "code") as [code|];
    [|intros _ _; eexists; reflexivity].
  destruct (get doc "msg") as [msg|];
    destruct (strict_eq_num code 0); cbn [negb]; try discriminate;
    try (intros _ _; eexists; reflexivity).
  all: destruct (get doc "data") as [data|];
    [|intros _ _; eexists; reflexivity].
  all: destruct (get data "id"); [|intros _ _; eexists; reflexivity].
  all: destruct (get data "conversation_id"); [|intros _ _; eexists; reflexivity].
  all: destruct (get data "status"); [discriminate|intros _ _; eexists; reflexivity].
Qed.

Lemma unusable_create_answer_is_internal_error_witness :
  posted_message Sample.hello = Some (JStr "hello") /\
  configured Sample.offline = Some ("pat_token", "bot_7") /\
  created (network Sample.offline 0) = None /\
  remote_error (network Sample.offline 0) = None /\
  exists x,
    run Sample.offline Sample.hello
    = (Ok internal_error,
       [create_call Sample.offline "pat_token" "bot_7" (JStr "hello");
        ConsoleError "Coze chat error:" x]).
Proof.
  do 4 (split; [reflexivity|]).
  apply (unusable_create_answer_is_internal_error Sample.offline Sample.hello
           (JStr "hello") "pat_token" "bot_7");
    reflexivity.
Defined.

(** X7.  For a request that passes the method and message checks, the
    configuration error is the answer exactly when one of the two variables
    is unset or empty; an empty string counts as missing. *)
Theorem misconfigured_iff (e : environment) (req : request) (m : value) :
  posted_message req = Some m ->
  (run e req = (Ok misconfigured, []) <-> configured e = None).
Proof.
  intros Hp. split.
  - intros Hrun. destruct (configured e) as [[t b]|] eqn:Hc; [|reflexivity].
    destruct (run_shape e req m t b Hp Hc) as (rest & tail & Htr & _).
    rewrite Hrun in Htr. discriminate.
  - intros Hc. apply (not_configured_is_500 e req m Hp Hc).
Qed.

Lemma misconfigured_iff_witness :
  posted_message Sample.hello = Some (JStr "hello") /\
  configured Sample.empty_token = None /\
  (run Sample.empty_token Sample.hello = (Ok misconfigured, [])
   <-> configured Sample.empty_token = None).
Proof.
  split; [reflexivity|]. split; [reflexivity|].
  apply (misconfigured_iff Sample.empty_token Sample.hello (JStr "hello")).
  reflexivity.
Defined.

(** ** The loop, in general *)

Lemma waited_poll_passes (n : nat) (t c v : string) :
  waited (poll_passes n t c v) = (1000 * Z.of_nat n)%Z.
Proof.
  induction n as [|n IH]; [reflexivity|].
  change (poll_passes (S n) t c v)
    with (poll_pass t c v ++ poll_passes n t c v).
  rewrite waited_app, IH. change (waited (poll_pass t c v)) with 1000%Z. lia.
Qed.

(** X8.  The number of polls is the position of the first answer that is not
    "in_progress": when the create call answers "in_progress", the first [n]
    polls answer "in_progress" and the next one answers another status, with
    [n] below 30, the run makes exactly [n + 1] polls, each after a wait of
    one second, and nothing else before the loop ends.  The ids of the
    session are strings, as the service sends them, or other values that
    [rendered] converts (numbers only of magnitude below 2^53). *)
Theorem polls_until_status_changes (e : environment) (req : request) (m : value)
        (t b : string) (ci cv : value) (c v : string) (n : nat) (st : value) :
  posted_message req = Some m ->
  configured e = Some (t, b) ->
  created (network e 0) = Some (ci, cv, JStr "in_progress") ->
  rendered ci = Some c ->
  rendered cv = Some v ->
  n < 30 ->
  (forall k, 1 <= k <= n ->
     polled_status (network e k) = Some (JStr "in_progress")) ->
  polled_status (network e (S n)) = Some st ->
  st <> JStr "in_progress" ->
  poll_calls (snd (run e req)) = S n /\
  waited (snd (run e req)) = (1000 * Z.of_nat (S n))%Z /\
  exists rest,
    snd (run e req) = create_call e t b m :: poll_passes (S n) t c v ++ rest.
Proof.
  intros Hp Hc Hcr Hci Hcv Hn Hpolls Hlast Hst.
  apply rendered_to_string in Hci, Hcv.
  rewrite (run_polled e req m t b Hp Hc ci cv _ Hcr). unfold try_catch.
  rewrite (poll_loop_until e m t b ci cv c v Hci Hcv n st Hn Hpolls Hlast Hst).
  destruct (after_loop e (JStr t) ci cv _ _) as [out tr'] eqn:Ha.
  apply after_loop_events in Ha.
  destruct Ha as (s2 & -> & _ & Hw2 & Hp2 & _).
  assert (Hgoal : forall tail,
             poll_calls tail = 0 -> waited tail = 0%Z ->
             poll_calls ((create_call e t b m :: poll_passes (S n) t c v) ++ tail)
             = S n /\
             waited ((create_call e t b m :: poll_passes (S n) t c v) ++ tail)
             = (1000 * Z.of_nat (S n))%Z /\
             exists rest,
               (create_call e t b m :: poll_passes (S n) t c v) ++ tail
               = create_call e t b m :: poll_passes (S n) t c v ++ rest).
  { intros tail Hpt Hwt.
    change (create_call e t b m :: poll_passes (S n) t c v)
      with ([create_call e t b m] ++ poll_passes (S n) t c v).
    rewrite !poll_calls_app, !waited_app, poll_calls_poll_passes,
      waited_poll_passes, Hpt, Hwt.
    change (poll_calls [create_call e t b m]) with 0.
    change (waited [create_call e t b m]) with 0%Z.
    split; [lia|]. split; [lia|].
    exists tail. rewrite <- app_assoc. reflexivity. }
  destruct out as [r|x]; cbn [snd].
  - apply Hgoal; assumption.
  - unfold on_error, bind, emit, ret. cbn [snd]. rewrite <- app_assoc.
    apply Hgoal.
    + rewrite poll_calls_app, Hp2. reflexivity.
    + rewrite waited_app, Hw2. reflexivity.
Qed.

Lemma polls_until_status_changes_witness :
  posted_message Sample.hello = Some (JStr "hello") /\
  configured Sample.three_polls = Some ("pat_token", "bot_7") /\
  created (network Sample.three_polls 0)
  = Some (JStr "chat1", JStr "conv1", JStr "in_progress") /\
  polled_status (network Sample.three_polls 3) = Some (JStr "completed") /\
  poll_calls (snd (run Sample.three_polls Sample.hello)) = 3 /\
  waited (snd (run Sample.three_polls Sample.hello)) = (1000 * Z.of_nat 3)%Z /\
  exists rest,
    snd (run Sample.three_polls Sample.hello)
    = create_call Sample.three_polls "pat_token" "bot_7" (JStr "hello")
        :: poll_passes 3 "pat_token" "chat1" "conv1" ++ rest.
Proof.
  do 4 (split; [reflexivity|]).
  apply (polls_until_status_changes Sample.three_polls Sample.hello (JStr "hello")
           "pat_token" "bot_7" (JStr "chat1") (JStr "conv1") "chat1" "conv1"
           2 (JStr "completed"));
    try reflexivity.
  - lia.
  - intros k Hk. assert (Hk' : k = 1 \/ k = 2) by lia.
    destruct Hk' as [-> | ->]; reflexivity.
  - discriminate.
Defined.

(** X9.  The counter counts the polls.  When the loop, started as the
    handler starts it with [attempts] at 0, ends below its test, [attempts]
    is the number of polls made, it is at most 30, and either it is 30 or
    the last status read is not "in_progress". *)
Theorem counter_counts_polls (e : environment) (t : string) (ci cv s : value)
        (tr : trace) (l : locals) (tr' : trace) :
  poll_loop e (JStr t) ci cv {| status := s; attempts := 0 |} tr
  = (Ok (l, None), tr') ->
  exists suffix,
    tr' = tr ++ suffix /\
    poll_calls suffix = attempts l /\
    attempts l <= 30 /\
    (attempts l = 30 \/ status l <> JStr "in_progress").
Proof.
  intros Hloop.
  pose proof (poll_loop_inv _ _ _ _ _ _ _ _ _ (Nat.le_refl _) Hloop)
    as [(s0 & Htr0 & [_ Hp0] & Hn0) Hexit].
  apply (poll_loop_events _ _ _ _ _ _ _ _ _ (Nat.le_refl _)) in Hloop.
  destruct Hloop as (s1 & -> & _ & _ & _ & Hcount).
  apply app_inv_head in Htr0. subst s0. cbn [attempts] in Hn0, Hcount.
  exists s1. split; [reflexivity|]. split; [lia|]. split; [lia|].
  unfold loop_cond in Hexit. apply andb_false_iff in Hexit.
  destruct Hexit as [Hst | Hlt].
  - right. apply strict_eq_str_false. exact Hst.
  - left. apply Nat.ltb_ge in Hlt. lia.
Qed.

Lemma counter_counts_polls_witness :
  poll_loop Sample.stuck (JStr "pat_token") (JStr "chat1") (JStr "conv1")
    {| status := JStr "in_progress"; attempts := 0 |} []
  = (Ok ({| status := JStr "in_progress"; attempts := 30 |}, None),
     poll_passes 30 "pat_token" "chat1" "conv1") /\
  exists suffix,
    poll_passes 30 "pat_token" "chat1" "conv1" = [] ++ suffix /\
    poll_calls suffix = 30 /\
    30 <= 30 /\
    (30 = 30 \/ JStr "in_progress" <> JStr "in_progress").
Proof.
  split; [reflexivity|].
  apply (counter_counts_polls Sample.stuck "pat_token" (JStr "chat1")
           (JStr "conv1") (JStr "in_progress") []
           {| status := JStr "in_progress"; attempts := 30 |}
           (poll_passes 30 "pat_token" "chat1" "conv1")).
  reflexivity.
Defined.

(** ** The message list, in general *)

(** One [null] entry is enough for the filter to throw. *)
Lemma array_filter_nullish (ms : list value) :
  forallb not_nullish ms = false ->
  array_filter is_answer ms = Throw TypeError.
Proof.
  induction ms as [|x ms IH]; [discriminate|].
  cbn [forallb array_filter]. intros H. apply andb_false_iff in H.
  destruct (not_nullish x) eqn:Hx.
  - destruct H as [H|H]; [discriminate|].
    rewrite (is_answer_not_nullish x Hx), (IH H). reflexivity.
  - destruct x; try discriminate; reflexivity.
Qed.

Lemma array_filter_ok_not_nullish (ms kept : list value) :
  array_filter is_answer ms = Ok kept -> forallb not_nullish ms = true.
Proof.
  intros H. destruct (forallb not_nullish ms) eqn:Hn; [reflexivity|].
  rewrite (array_filter_nullish ms Hn) in H. discriminate.
Qed.

Lemma session_get_inv (e : environment) (a ci cv : value) (base : string)
      (tr : trace) (doc : value) (tr' : trace) :
  session_get e a ci cv base tr = (Ok doc, tr') ->
  exists url init,
    tr' = tr ++ [Fetch url init] /\
    session_url ci cv base = Ok url /\
    document (network e (fetches tr)) = Some doc.
Proof.
  unfold session_get, fetch, json_of, document, bind, lift.
  destruct (session_url ci cv base) as [url|]; [|discriminate].
  destruct (authorization a) as [auth|]; [|discriminate].
  destruct (network e (fetches tr)) as [|hs [doc'|]]; try discriminate.
  cbn [snd]. intros H; inversion H; subst. eauto.
Qed.

Lemma list_url_is_list_call (ci cv : value) (url : string) (init : fetch_init) :
  session_url ci cv list_base = Ok url ->
  is_list_call (Fetch url init) = true.
Proof.
  unfold session_url.
  destruct (template ci); [|discriminate].
  destruct (template cv); [|discriminate].
  intros H; inversion H; reflexivity.
Qed.

(** The only way out of step 3 with a 200. *)
Lemma retrieve_reply_ok (e : environment) (a ci cv : value) (tr : trace)
      (r : response) (tr' : trace) :
  retrieve_reply e a ci cv tr = (Ok r, tr') ->
  status_code r = 200%Z ->
  exists ev ms,
    tr' = tr ++ [ev] /\
    is_list_call ev = true /\
    listed (network e (fetches tr)) = Some ms /\
    forallb not_nullish ms = true /\
    r = reply_with (last (map content_of (filter assistant_answer ms)) (JStr "")).
Proof.
  unfold retrieve_reply. unfold bind at 1.
  destruct (session_get e a ci cv list_base tr) as [[doc|x] tr1] eqn:Hg;
    [|discriminate].
  apply session_get_inv in Hg. destruct Hg as (url & init & -> & Hurl & Hdoc).
  unfold bind, lift, ret.
  destruct (get doc "code") as [code|] eqn:Hcode; [|discriminate].
  destruct (strict_eq_num code 0) eqn:Hzero; cbn [negb].
  - destruct (get doc "data") as [data|] eqn:Hdata; [|discriminate].
    destruct (call_filter data is_answer) as [kept|] eqn:Hf; [|discriminate].
    destruct data as [| | | | |ms|]; try discriminate Hf. cbn [call_filter] in Hf.
    pose proof (array_filter_ok_not_nullish ms kept Hf) as Hms.
    rewrite (array_filter_is_answer ms Hms) in Hf. injection Hf as <-.
    rewrite pick_reply_last.
    + intros H _. inversion H; subst. exists (Fetch url init), ms.
      split; [reflexivity|]. split; [apply (list_url_is_list_call ci cv _ _ Hurl)|].
      split; [|split; [exact Hms|reflexivity]].
      unfold listed, code_zero. rewrite Hdoc, Hcode, Hzero, Hdata. reflexivity.
    + apply Forall_forall. intros x Hin. apply filter_In in Hin. tauto.
  - destruct (get doc "msg"); [|discriminate].
    intros H H200. inversion H; subst. discriminate.
Qed.

(** X11.  A 200 is sent in one situation only.  Whenever the handler
    answers 200, the last thing it did was the message-list call, the
    answer to that call had code 0 and an array of entries without [null]
    under [data], and the response is [{ reply }] with the content of the
    last assistant answer of that array (the empty string when there is
    none). *)
Theorem ok_only_after_message_list (e : environment) (req : request)
        (r : response) (tr : trace) :
  run e req = (Ok r, tr) ->
  status_code r = 200%Z ->
  exists before ev ms,
    tr = before ++ [ev] /\
    is_list_call ev = true /\
    listed (network e (fetches before)) = Some ms /\
    forallb not_nullish ms = true /\
    r = reply_with (last (map content_of (filter assistant_answer ms)) (JStr "")).
Proof.
  intros Hrun H200.
  destruct (run_cases e req) as [H|[H|[H|(m & t & b & Hp & Hc)]]];
    try (rewrite H in Hrun; inversion Hrun; subst; discriminate).
  rewrite (run_chat _ _ _ _ _ Hp Hc) in Hrun. unfold try_catch in Hrun.
  destruct (chat e (JStr t) (JStr b) m []) as [[r'|x] tr1] eqn:Hchat.
  2:{ unfold on_error, bind, emit, ret in Hrun. inversion Hrun; subst.
      discriminate. }
  inversion Hrun; subst; clear Hrun.
  revert Hchat. unfold chat. unfold bind at 1.
  destruct (create_session e (JStr t) (JStr b) m [])
    as [[[early|[[ci cv] st]]|x] tr1] eqn:Hcreate; [| |discriminate].
  - apply create_session_inv in Hcreate. unfold ret.
    intros H; inversion H; subst. congruence.
  - unfold bind.
    destruct (poll_loop e (JStr t) ci cv {| status := st; attempts := 0 |} tr1)
      as [[[l [early|]]|x] tr2] eqn:Hloop; cbn [fst snd]; [| |discriminate].
    + apply (poll_loop_inv _ _ _ _ _ _ _ _ _ (Nat.le_refl _)) in Hloop.
      destruct Hloop as [_ Hloop]. unfold ret.
      intros H; inversion H; subst. congruence.
    + unfold after_loop.
      destruct (negb (strict_eq_str (status l) "completed")).
      * unfold bind, lift, ret. destruct (template (status l)); [|discriminate].
        intros H; inversion H; subst. discriminate.
      * intros Hreply.
        destruct (retrieve_reply_ok _ _ _ _ _ _ _ Hreply H200)
          as (ev & ms & -> & Hfacts).
        exists tr2, ev, ms. split; [reflexivity|exact Hfacts].
Qed.

Lemma ok_only_after_message_list_witness :
  run Sample.quick Sample.hello
  = (Ok (reply_with (JStr "B")),
     [create_call Sample.quick "pat_token" "bot_7" (JStr "hello");
      session_call list_base "pat_token" "chat1" "conv1"]) /\
  status_code (reply_with (JStr "B")) = 200%Z /\
  exists before ev ms,
    [create_call Sample.quick "pat_token" "bot_7" (JStr "hello");
     session_call list_base "pat_token" "chat1" "conv1"] = before ++ [ev] /\
    is_list_call ev = true /\
    listed (network Sample.quick (fetches before)) = Some ms /\
    forallb not_nullish ms = true /\
    reply_with (JStr "B")
    = reply_with (last (map content_of (filter assistant_answer ms)) (JStr "")).
Proof.
  split; [reflexivity|]. split; [reflexivity|].
  apply (ok_only_after_message_list Sample.quick Sample.hello
           (reply_with (JStr "B"))
           [create_call Sample.quick "pat_token" "bot_7" (JStr "hello");
            session_call list_base "pat_token" "chat1" "conv1"]);
    reflexivity.
Defined.

(** X10.  A message list the handler cannot use.  When the loop has ended
    with "completed" and the answer to the list call has code 0 but [data]
    is not an array, or is an array with a [null] entry (even beside real
    answers), the filter throws: the handler answers 500 [Internal server
    error] and logs the [TypeError], after the list call.  The ids of the
    session are strings, as the service sends them, or other values that
    [rendered] converts (numbers only of magnitude below 2^53). *)
Theorem unusable_list_is_internal_error (e : environment) (req : request)
        (m : value) (t b : string) (ci cv s : value) (c v : string)
        (l : locals) (tr : trace) (doc : value) :
  posted_message req = Some m ->
  configured e = Some (t, b) ->
  created (network e 0) = Some (ci, cv, s) ->
  rendered ci = Some c ->
  rendered cv = Some v ->
  poll_loop e (JStr t) ci cv {| status := s; attempts := 0 |}
    [create_call e t b m] = (Ok (l, None), tr) ->
  status l = JStr "completed" ->
  document (network e (fetches tr)) = Some doc ->
  code_zero doc = true ->
  (listed (network e (fetches tr)) = None \/
   exists ms, listed (network e (fetches tr)) = Some ms /\
              forallb not_nullish ms = false) ->
  run e req
  = (Ok internal_error,
     tr ++ [session_call list_base t c v;
            ConsoleError "Coze chat error:" TypeError]).
Proof.
  intros Hp Hc Hcr Hci Hcv Hloop Hst Hdoc Hzero Hbad.
  apply rendered_to_string in Hci, Hcv.
  rewrite (run_polled e req m t b Hp Hc ci cv s Hcr). unfold try_catch.
  rewrite Hloop. unfold after_loop. rewrite Hst.
  rewrite (proj2 (strict_eq_str_true (JStr "completed") "completed") eq_refl).
  cbn [negb]. unfold retrieve_reply. unfold bind at 1.
  rewrite (session_get_document e t ci cv c v Hci Hcv _ _ _ Hdoc).
  unfold listed in Hbad. rewrite Hdoc, Hzero in Hbad.
  unfold code_zero in Hzero. unfold bind, lift, ret.
  destruct (get doc "code") as [code|] eqn:Hcode; [|discriminate].
  rewrite Hzero. cbn [negb].
  assert (Hdata : exists data, get doc "data" = Ok data).
  { destruct doc; try discriminate Hcode; simpl; eauto.
    destruct (lookup "data" props); eauto. }
  destruct Hdata as [data Hdata]. rewrite Hdata in Hbad |- *.
  assert (Hthrow : call_filter data is_answer = Throw TypeError).
  { destruct data as [| | | | |ms|]; try reflexivity.
    destruct Hbad as [Hbad | (ms' & Hms & Hnull)]; [discriminate|].
    injection Hms as <-. apply (array_filter_nullish ms Hnull). }
  rewrite Hthrow. unfold on_error, bind, emit, ret.
  rewrite <- app_assoc. reflexivity.
Qed.

Lemma unusable_list_is_internal_error_witness :
  posted_message Sample.hello = Some (JStr "hello") /\
  configured Sample.quick_null_entry = Some ("pat_token", "bot_7") /\
  (exists ms, listed (network Sample.quick_null_entry 1) = Some ms /\
              forallb not_nullish ms = false) /\
  run Sample.quick_null_entry Sample.hello
  = (Ok internal_error,
     [create_call Sample.quick_null_entry "pat_token" "bot_7" (JStr "hello")]
       ++ [session_call list_base "pat_token" "chat1" "conv1";
           ConsoleError "Coze chat error:" TypeError]).
Proof.
  split; [reflexivity|]. split; [reflexivity|].
  split; [eexists; split; reflexivity|].
  apply (unusable_list_is_internal_error Sample.quick_null_entry Sample.hello
           (JStr "hello") "pat_token" "bot_7" (JStr "chat1") (JStr "conv1")
           (JStr "completed") "chat1" "conv1"
           {| status := JStr "completed"; attempts := 0 |}
           [create_call Sample.quick_null_entry "pat_token" "bot_7" (JStr "hello")]
           Sample.null_entry_doc);
    try reflexivity.
  right. eexists. split; reflexivity.
Defined.

(** ** Which check answers *)

(** X12.  The 405 is the answer to a method other than POST and to nothing
    else: whatever happens to a POST request, its response never has status
    405. *)
Theorem status_405_iff (e : environment) (req : request)
        (r : response) (tr : trace) :
  run e req = (Ok r, tr) ->
  (status_code r = 405%Z <-> method req <> JStr "POST").
Proof.
  intros Hrun.
  destruct (strict_eq_str (method req) "POST") eqn:Hm.
  - pose proof (proj1 (strict_eq_str_true _ _) Hm) as Hpost.
    split; [|congruence]. intros H405. exfalso.
    revert Hrun. unfold run, handler. rewrite Hm. cbn [negb].
    destruct (message_read (body req)) as [m Hmsg].
    unfold bind at 1. unfold lift at 1. rewrite Hmsg.
    destruct (negb (truthy m)).
    { unfold ret. intros H; inversion H; subst. discriminate. }
    destruct (_ || _).
    { unfold ret. intros H; inversion H; subst. discriminate. }
    unfold try_catch.
    destruct (chat e _ _ m []) as [[r'|x] tr1] eqn:Hchat.
    + apply chat_inv in Hchat. intros H; inversion H; subst.
      destruct Hchat; congruence.
    + unfold on_error, bind, emit, ret. intros H; inversion H; subst.
      discriminate.
  - pose proof (proj1 (strict_eq_str_false _ _) Hm) as Hnot.
    split; [intros _; exact Hnot|]. intros _.
    revert Hrun. unfold run, handler. rewrite Hm. cbn [negb]. unfold ret.
    intros H; inversion H; subst. reflexivity.
Qed.

Lemma status_405_iff_witness :
  run Sample.quick Sample.get_request = (Ok method_not_allowed, []) /\
  (status_code method_not_allowed = 405%Z
   <-> method Sample.get_request <> JStr "POST").
Proof.
  split; [reflexivity|].
  apply (status_405_iff Sample.quick Sample.get_request method_not_allowed []).
  reflexivity.
Defined.

(** ** A poll the handler cannot use *)

Lemma loop_body_unusable (e : environment) (t : string) (ci cv : value)
      (c v : string) (l : locals) (tr : trace) :
  to_string ci = Some c ->
  to_string cv = Some v ->
  polled_status (network e (fetches tr)) = None ->
  remote_error (network e (fetches tr)) = None ->
  exists x,
    loop_body e (JStr t) ci cv l tr = (Throw x, tr ++ poll_pass t c v).
Proof.
  intros Hci Hcv. unfold polled_status, remote_error, document, code_zero.
  unfold loop_body, session_get, session_url, template, sleep, emit, fetch,
    json_of, bind, lift, ret.
  rewrite Hci, Hcv. cbn [authorization template to_string].
  rewrite after_sleep. rewrite <- app_assoc. cbn [app].
  destruct (network e (fetches tr)) as [|hs [doc|]]; cbn [snd];
    try (intros _ _; eexists; reflexivity).
  destruct (get doc "code") as [code|];
    [|intros _ _; eexists; reflexivity].
  destruct (get doc "msg") as [msg|];
    destruct (strict_eq_num code 0); cbn [negb]; try discriminate;
    try (intros _ _; eexists; reflexivity).
  all: destruct (get doc "data") as [data|];
    [|intros _ _; eexists; reflexivity].
  all: destruct (get data "status"); [discriminate|intros _ _; eexists; reflexivity].
Qed.

(** X13.  A poll that comes back with neither a status nor a remote error
    (the call is rejected, the body is not JSON, or it says code 0 without
    [data]) ends the run at that poll: the handler answers 500 [Internal
    server error], logs once, and neither polls again nor lists the
    messages.  The ids of the session are strings, as the service sends
    them, or other values that [rendered] converts (numbers only of
    magnitude below 2^53). *)
Theorem unusable_poll_is_internal_error (e : environment) (req : request)
        (m : value) (t b : string) (ci cv : value) (c v : string) (n : nat) :
  posted_message req = Some m ->
  configured e = Some (t, b) ->
  created (network e 0) = Some (ci, cv, JStr "in_progress") ->
  rendered ci = Some c ->
  rendered cv = Some v ->
  n < 30 ->
  (forall k, 1 <= k <= n ->
     polled_status (network e k) = Some (JStr "in_progress")) ->
  polled_status (network e (S n)) = None ->
  remote_error (network e (S n)) = None ->
  exists x,
    run e req
    = (Ok internal_error,
       create_call e t b m :: poll_passes (S n) t c v
         ++ [ConsoleError "Coze chat error:" x]).
Proof.
  intros Hp Hc Hcr Hci Hcv Hn Hpolls Hnone Hnoerr.
  apply rendered_to_string in Hci, Hcv.
  rewrite (run_polled e req m t b Hp Hc ci cv _ Hcr). unfold try_catch.
  rewrite (poll_loop_in_progress e t ci cv c v Hci Hcv n 0); [|lia|].
  - rewrite poll_loop_enter.
    + destruct (loop_body_unusable e t ci cv c v
                  {| status := JStr "in_progress"; attempts := 0 + n |}
                  ([create_call e t b m] ++ poll_passes n t c v) Hci Hcv)
        as [x Hbody].
      * rewrite fetches_app, fetches_poll_passes. exact Hnone.
      * rewrite fetches_app, fetches_poll_passes. exact Hnoerr.
      * rewrite Hbody. exists x. unfold on_error, bind, emit, ret.
        rewrite <- !app_assoc, (app_assoc (poll_passes n t c v)),
          poll_passes_snoc.
        reflexivity.
    + unfold loop_cond. cbn [status attempts strict_eq_str].
      rewrite String.eqb_refl. apply Nat.ltb_lt. lia.
  - intros i Hi. apply Hpolls. change (fetches [create_call e t b m]) with 1. lia.
Qed.

Lemma unusable_poll_is_internal_error_witness :
  posted_message Sample.hello = Some (JStr "hello") /\
  configured Sample.poll_drops = Some ("pat_token", "bot_7") /\
  polled_status (network Sample.poll_drops 1) = Some (JStr "in_progress") /\
  polled_status (network Sample.poll_drops 2) = None /\
  remote_error (network Sample.poll_drops 2) = None /\
  exists x,
    run Sample.poll_drops Sample.hello
    = (Ok internal_error,
       create_call Sample.poll_drops "pat_token" "bot_7" (JStr "hello")
         :: poll_passes 2 "pat_token" "chat1" "conv1"
         ++ [ConsoleError "Coze chat error:" x]).
Proof.
  do 5 (split; [reflexivity|]).
  apply (unusable_poll_is_internal_error Sample.poll_drops Sample.hello
           (JStr "hello") "pat_token" "bot_7" (JStr "chat1") (JStr "conv1")
           "chat1" "conv1" 1);
    try reflexivity.
  - lia.
  - intros k Hk. assert (Hk1 : k = 1) by lia. rewrite Hk1. reflexivity.
Defined.
